(** * dBet backend: resolution relay and dynamic metadata

    A shallow embedding of [index.js]: the in-memory [resolutionStore], the
    [apiKeyMiddleware], and the three route handlers
    - [GET  /metadata/:marketAddress/:tokenId],
    - [POST /resolve-market],
    - [GET  /get-resolution/:marketAddress],
    followed by the properties of the relay and of the metadata derivation. *)

From Stdlib Require Import ZArith Bool Ascii String List Lia DecimalString.
From stdpp Require Import base option strings gmap.

Set Warnings "-register-all".

Local Open Scope string_scope.
Local Open Scope Z_scope.

(** ** JavaScript values *)

Module Js.

(** What [express.json()] hands to a handler: the result of [JSON.parse].
    A number is represented by the integer it denotes, as parsed (the
    handlers store and echo numbers, they never compute on them); an object
    by its fields, whose keys are distinct after parsing. *)
Inductive Json : Type :=
| JNull
| JBool (b : bool)
| JNum (n : Z)
| JStr (s : string)
| JArr (elems : list Json)
| JObj (fields : list (string * Json)).

(** A field of a parsed body is either absent ([undefined]) or a JSON value. *)
Definition Field : Type := option Json.

(** What reading a property of [resolutionStore] can yield: [undefined], a
    value that a request put there, or something inherited from the built-in
    prototypes. *)
Inductive Value : Type :=
| Undefined
| Val (j : Json)
| Builtin (name : string)        (* a built-in function object *)
| ObjectPrototype.               (* the object [Object.prototype] itself *)

(** [!x] for a destructured body field. *)
Definition falsy (x : Field) : bool :=
  match x with
  | None => true
  | Some JNull => true
  | Some (JBool b) => negb b
  | Some (JNum n) => (n =? 0)%Z
  | Some (JStr s) => String.eqb s ""
  | Some (JArr _) => false
  | Some (JObj _) => false
  end.

(** [!s] for a value that is a string or [undefined] (a request header). *)
Definition falsy_header (h : option string) : bool :=
  match h with
  | None => true
  | Some s => String.eqb s ""
  end.

(** [a != b] where each side is a string or [undefined]. *)
Definition loose_neq (a b : option string) : bool :=
  match a, b with
  | Some s, Some t => negb (String.eqb s t)
  | None, None => false
  | _, _ => true
  end.

(** [String.prototype.toLowerCase] on ASCII text: the letters A to Z are
    folded, every other byte is kept. On a string that is [ascii_only] this
    is the function of the engine; on other strings the engine also folds
    the cased letters outside ASCII, which this function does not, so every
    statement below that depends on which key a string is stored or read
    under takes [ascii_only] strings. *)
Definition lower_ascii (c : ascii) : ascii :=
  let n := nat_of_ascii c in
  if ((65 <=? n) && (n <=? 90))%nat then ascii_of_nat (n + 32) else c.

Fixpoint toLowerCase (s : string) : string :=
  match s with
  | EmptyString => EmptyString
  | String c rest => String (lower_ascii c) (toLowerCase rest)
  end.

(** The strings on which [toLowerCase] is the engine's function: every byte
    is below 128. *)
Fixpoint ascii_only (s : string) : bool :=
  match s with
  | EmptyString => true
  | String c rest => (nat_of_ascii c <? 128)%nat && ascii_only rest
  end.

(** [x.toLowerCase()] for a body field: only a string has the method; for
    anything else the call throws a [TypeError] ([None]). *)
Definition call_toLowerCase (x : Field) : option string :=
  match x with
  | Some (JStr s) => Some (toLowerCase s)
  | _ => None
  end.

(** Canonical decimal text of a natural number (an array index). *)
Definition index_name (i : nat) : string :=
  NilZero.string_of_uint (Nat.to_uint i).

Fixpoint assoc (k : string) (fields : list (string * Json)) : option Json :=
  match fields with
  | [] => None
  | (k', v) :: rest => if String.eqb k k' then Some v else assoc k rest
  end.

(** Does the conversion of a parsed value to text, as in a template literal
    [`${x}`], succeed?  A parsed object is converted by the inherited
    [toString], unless a field named [toString] shadows it: a parsed value
    is never a function, the inherited [valueOf] returns the object itself,
    and the conversion throws a [TypeError]. An array is converted by
    [join], which converts every element. *)
Fixpoint stringifiable (x : Json) : bool :=
  match x with
  | JArr elems => forallb stringifiable elems
  | JObj fields =>
      match assoc "toString" fields with
      | Some _ => false
      | None => true
      end
  | _ => true
  end.

(** *** Ordinary objects and their prototype chain

    [const resolutionStore = {}] is an ordinary object: its own properties are
    the mappings written by the relay, and every read that misses them goes on
    to its prototype, initially [Object.prototype]. The [__proto__] accessor of
    [Object.prototype] lets an assignment replace that prototype by a parsed
    object, a parsed array or [null]. *)
Inductive Prototype : Type :=
| ProtoObject                                    (* Object.prototype *)
| ProtoNull
| ProtoParsedObject (fields : list (string * Json))
| ProtoParsedArray (elems : list Json).

Record Object : Type := mkObject {
  own : gmap string Json;
  proto : Prototype
}.

(** [{}] *)
Definition empty_object : Object := {| own := ∅; proto := ProtoObject |}.

(** The function-valued data properties of [Object.prototype]. *)
Definition object_prototype_methods : list string :=
  [ "constructor"; "hasOwnProperty"; "isPrototypeOf"; "propertyIsEnumerable";
    "toLocaleString"; "toString"; "valueOf";
    "__defineGetter__"; "__defineSetter__"; "__lookupGetter__"; "__lookupSetter__" ].

(** The function-valued data properties of [Array.prototype]. *)
Definition array_prototype_methods : list string :=
  [ "at"; "concat"; "constructor"; "copyWithin"; "entries"; "every"; "fill"; "filter";
    "find"; "findIndex"; "findLast"; "findLastIndex"; "flat"; "flatMap";
    "forEach"; "includes"; "indexOf"; "join"; "keys"; "lastIndexOf"; "map";
    "pop"; "push"; "reduce"; "reduceRight"; "reverse"; "shift"; "slice";
    "some"; "sort"; "splice"; "toLocaleString"; "toReversed"; "toSorted";
    "toSpliced"; "toString"; "unshift"; "values"; "with" ].

Definition mem (k : string) (names : list string) : bool :=
  existsb (String.eqb k) names.

(** The value of the receiver's prototype, as the [__proto__] getter returns it. *)
Definition prototype_value (p : Prototype) : Value :=
  match p with
  | ProtoObject => ObjectPrototype
  | ProtoNull => Val JNull
  | ProtoParsedObject fields => Val (JObj fields)
  | ProtoParsedArray elems => Val (JArr elems)
  end.

(** A read that reaches [Object.prototype]; [p] is the receiver's prototype. *)
Definition object_prototype_get (p : Prototype) (k : string) : Value :=
  if String.eqb k "__proto__" then prototype_value p
  else if String.eqb k "constructor" then Builtin "Object"
  else if mem k object_prototype_methods then Builtin ("Object.prototype." ++ k)
  else Undefined.

(** An own element of a parsed array: [length] or a canonical index. *)
Definition array_own (elems : list Json) (k : string) : option Json :=
  if String.eqb k "length" then Some (JNum (Z.of_nat (length elems)))
  else
    snd <$> find (fun '(i, _) => String.eqb k (index_name i))
                 (combine (seq 0 (length elems)) elems).

(** A read that misses the receiver's own properties. *)
Definition inherited_get (p : Prototype) (k : string) : Value :=
  match p with
  | ProtoObject => object_prototype_get p k
  | ProtoNull => Undefined
  | ProtoParsedObject fields =>
      match assoc k fields with
      | Some v => Val v
      | None => object_prototype_get p k
      end
  | ProtoParsedArray elems =>
      match array_own elems k with
      | Some v => Val v
      | None =>
          if String.eqb k "constructor" then Builtin "Array"
          else if mem k array_prototype_methods then Builtin ("Array.prototype." ++ k)
          else object_prototype_get p k
      end
  end.

(** [o[k]] *)
Definition get (o : Object) (k : string) : Value :=
  match own o !! k with
  | Some v => Val v
  | None => inherited_get (proto o) k
  end.

(** Does an assignment to [__proto__] that misses the own properties reach the
    accessor of [Object.prototype]?  A parsed object with a field of that name
    shadows it with a plain data property. *)
Definition reaches_proto_setter (p : Prototype) : bool :=
  match p with
  | ProtoObject => true
  | ProtoNull => false
  | ProtoParsedObject fields =>
      match assoc "__proto__" fields with Some _ => false | None => true end
  | ProtoParsedArray _ => true
  end.

(** The [__proto__] setter: an object or [null] becomes the prototype, any
    other value is ignored. *)
Definition set_prototype (o : Object) (v : Json) : Object :=
  match v with
  | JObj fields => {| own := own o; proto := ProtoParsedObject fields |}
  | JArr elems => {| own := own o; proto := ProtoParsedArray elems |}
  | JNull => {| own := own o; proto := ProtoNull |}
  | _ => o
  end.

(** [o[k] = v] *)
Definition set (o : Object) (k : string) (v : Json) : Object :=
  match own o !! k with
  | Some _ => {| own := <[k := v]> (own o); proto := proto o |}
  | None =>
      if String.eqb k "__proto__" && reaches_proto_setter (proto o)
      then set_prototype o v
      else {| own := <[k := v]> (own o); proto := proto o |}
  end.

(** The names that a fresh object inherits and that are their own lowercase
    form: the only inherited ones a lowercased key can hit. *)
Definition inherited_lowercase : list string := [ "constructor"; "__proto__" ].

End Js.

(** ** Numbers at the display boundary *)

Module Num.

(** [Number(q)] for a BigInt [q]: the nearest double, ties to even. Below
    [2^53] every integer is a double; above, the 53 leading bits are kept and
    the rest is rounded. The result is again an integer. The reads of the
    chain are [uint256], so [q] stays far below the overflow threshold. *)
Definition Number (q : Z) : Z :=
  let a := Z.abs q in
  let e := Z.log2 a in
  if e <? 53 then q
  else
    let sh := e - 52 in
    let m := Z.shiftr a sh in
    let r := Z.land a (Z.ones sh) in
    let half := Z.shiftl 1 (sh - 1) in
    let m' := if (half <? r) || ((r =? half) && Z.odd m) then m + 1 else m in
    Z.sgn q * Z.shiftl m' sh.

(** Decimal text of an integer. *)
Definition decimal (x : Z) : string := NilZero.string_of_int (Z.to_int x).

Section ToFixed.

(** The engine's [Number::toString], which [toFixed] falls back to from
    [1e21] on (exponent notation). *)
Variable Number_toString : Z -> string.

(** [x.toFixed(2)] for an integer-valued number [x]. *)
Definition toFixed2 (x : Z) : string :=
  if Z.abs x <? 10 ^ 21 then decimal x ++ ".00" else Number_toString x.

End ToFixed.

End Num.

(** ** The chain, as the handlers read it *)

(** The tuple returned by [options(uint256)]. *)
Module MarketOption.
Record t : Type := mk { name : string; totalPool : Z }.
End MarketOption.

(** The read-only contract calls of [predictionMarketAbi] and
    [positionNftAbi], at the contract address given first. A call that
    rejects (network failure, revert, undecodable answer or argument) is
    [None]; an amount is the [uint256] the contract returned. *)
Record Chain : Type := mkChain {
  positionNFT : string -> option string;
  tokenOption : string -> string -> option Z;
  options : string -> Z -> option MarketOption.t;
  totalPool : string -> option Z;
  isResolved : string -> option bool;
  winningOptionIndex : string -> option Z
}.

(** ** Responses *)

Record Attribute : Type := mkAttribute { trait_type : string; value : string }.

Module Metadata.
Record t : Type := mk {
  name : string;
  description : string;
  image : string;
  attributes : list Attribute
}.
End Metadata.

(** The argument of [res.json], or the page Express itself sends when a
    handler throws. *)
Inductive Body : Type :=
| ErrorBody (error : string)
| StoredBody (message : string) (market : string) (winner : Js.Json)
| ResolutionBody (winningOptionIndex : Js.Value)
| MetadataBody (metadata : Metadata.t)
| DefaultErrorPage.

Record Response : Type := mkResponse { status : Z; body : Body }.

(** ** The metadata renderer *)

(** The keys of [imageUrls]. *)
Inductive Tier : Type :=
| initial | slight_advantage | huge_advantage | win
| slight_disadvantage | huge_disadvantage | loss.

Definition imageUrls (t : Tier) : string :=
  match t with
  | initial => "ipfs://bafybeihnupuikrn6zwq7aozfmtw7eppqf4hhrasyo2lpari7arz27i6pqq"
  | slight_advantage => "ipfs://bafybeihnupuikrn6zwq7aozfmtw7eppqf4hhrasyo2lpari7arz27i6pqq"
  | huge_advantage => "ipfs://bafybeiecjtvd4xxlyjlr2uagy2ermnkfyfhgbdzhqrp4coflmwef33o6pm"
  | win => "ipfs://bafybeigeswyw24exdy5r4hvx2zg3yvfprcazhja5aowqwlvejeviizoomm"
  | slight_disadvantage => "ipfs://bafybeihyqd3sltgm72vcn2mbd2tcm64qqxtmnm232a5rujnonox7j4w77q"
  | huge_disadvantage => "ipfs://bafybeifubqeukm7q5fd5wxulstptokvbrq3jmdho6em5rh6kk4vi6mod2y"
  | loss => "ipfs://bafybeihiaeifcob2wsqc5tqg6ae3voc5wzfuhp7pf2ln56t3njibbjhgkq"
  end.

(** [userOptionIndex === 0n ? option0.totalPool : option1.totalPool] *)
Definition userOptionPool (userOptionIndex : Z) (option0 option1 : MarketOption.t) : Z :=
  if userOptionIndex =? 0 then MarketOption.totalPool option0
  else MarketOption.totalPool option1.

(** [let odds = 50; if (totalPool > 0) odds = Number((userOptionPool * 100n) / totalPool)],
    as a function of the pool chosen; the division of BigInts truncates. *)
Definition oddsOf (userOptionPool totalPool : Z) : Z :=
  if totalPool >? 0 then Num.Number ((userOptionPool * 100) ÷ totalPool) else 50.

Definition odds (userOptionIndex : Z) (option0 option1 : MarketOption.t) (totalPool : Z) : Z :=
  oddsOf (userOptionPool userOptionIndex option0 option1) totalPool.

(** The [else] branch of [if (isResolved)]: the key of [imageUrls] chosen for
    an unresolved market; [currentImage] starts as [imageUrls.initial]. *)
Definition unresolvedTier (odds : Z) : Tier :=
  if odds >? 75 then huge_advantage
  else if odds >? 55 then slight_advantage
  else if odds <? 25 then huge_disadvantage
  else if odds <? 45 then slight_disadvantage
  else initial.

(** The [if] branch: [winningIndex === userOptionIndex] on BigInts. *)
Definition resolvedTier (winningIndex userOptionIndex : Z) : Tier :=
  if winningIndex =? userOptionIndex then win else loss.

Definition resolvedResult (winningIndex userOptionIndex : Z) : string :=
  if winningIndex =? userOptionIndex then "Won" else "Lost".

(** ** The server *)

Section Server.

(** [ethers.isAddress] *)
Variable isAddress : string -> bool.
(** The engine's exponent notation, see [Num.toFixed2]. *)
Variable Number_toString : Z -> string.
(** [process.env.API_KEY]: a string, or [undefined] when the variable is unset. *)
Variable API_KEY : option string.

Definition json (code : Z) (b : Body) : Response := {| status := code; body := b |}.

(** *** [apiKeyMiddleware]

    [Some r]: the middleware answered with [r] and ended the request;
    [None]: it called [next()]. *)
Definition apiKeyMiddleware (providedApiKey : option string) : option Response :=
  if Js.falsy_header providedApiKey || Js.loose_neq providedApiKey API_KEY
  then Some (json 401 (ErrorBody "未授权: 无效的 API Key"))
  else None.

(** *** [GET /metadata/:marketAddress/:tokenId] *)

(** [const metadata = { name, description, image, attributes }] *)
Definition document (tokenId currentImage : string) (odds : Z) (resultValue : string)
  : Metadata.t :=
  {| Metadata.name := "Prediction Market Position #" ++ tokenId;
     Metadata.description :=
       "A dynamic NFT representing a position in a dBet prediction market.";
     Metadata.image := currentImage;
     Metadata.attributes :=
       [ {| trait_type := "Your Option Odds";
            value := Num.toFixed2 Number_toString odds ++ "%" |};
         {| trait_type := "Result"; value := resultValue |} ] |}.

(** The part of the handler after the address check, inside [try]; [None]
    is a thrown error, caught by [catch]. The position contract is read
    first, then the four reads of [Promise.all], then, on a resolved market,
    the winning index. *)
Definition metadata (chain : Chain) (marketAddress tokenId : string) : option Metadata.t :=
  nftAddress ← positionNFT chain marketAddress;
  userOptionIndex ← tokenOption chain nftAddress tokenId;
  option0 ← options chain marketAddress 0;
  option1 ← options chain marketAddress 1;
  totalPool ← totalPool chain marketAddress;
  isResolved ← isResolved chain marketAddress;
  let odds := odds userOptionIndex option0 option1 totalPool in
  '(currentImage, resultValue) ←
    (if isResolved : bool
     then
       winningIndex ← winningOptionIndex chain marketAddress;
       Some (imageUrls (resolvedTier winningIndex userOptionIndex),
             resolvedResult winningIndex userOptionIndex)
     else Some (imageUrls (unresolvedTier odds), "Pending"));
  Some (document tokenId currentImage odds resultValue).

Definition get_metadata (chain : Chain) (marketAddress tokenId : string) : Response :=
  if negb (isAddress marketAddress)
  then json 400 (ErrorBody "無效的市場合約地址。")
  else
    match metadata chain marketAddress tokenId with
    | Some m => json 200 (MetadataBody m)
    | None => json 500 (ErrorBody "获取元数据失败。")
    end.

(** *** [POST /resolve-market], after the middleware

    The handler is synchronous; an exception reaches Express, which answers
    500. There are two: the [TypeError] of [marketAddress.toLowerCase()] on a
    value that is not a string, before anything is written; and, after the
    assignment to the store, the [TypeError] of the log line
    [`... ${marketAddress} ... ${winningOptionIndex}`] when the index cannot
    be converted to text. *)
Definition resolve_market (resolutionStore : Js.Object)
    (marketAddress winningOptionIndex : Js.Field) : Response * Js.Object :=
  if Js.falsy marketAddress
  then (json 400 (ErrorBody "marketAddress 和 winningnOptionIndex是不合法的"), resolutionStore)
  else
    match winningOptionIndex with
    | None =>
        (json 400 (ErrorBody "marketAddress 和 winningnOptionIndex是不合法的"), resolutionStore)
    | Some winner =>
        match marketAddress with
        | Some (Js.JStr address) =>
            let written := Js.set resolutionStore (Js.toLowerCase address) winner in
            if Js.stringifiable winner
            then (json 200 (StoredBody "裁决结果已成功存储." address winner), written)
            else (json 500 DefaultErrorPage, written)
        | _ => (json 500 DefaultErrorPage, resolutionStore)
        end
    end.

(** [app.post('/resolve-market', apiKeyMiddleware, ...)]: the middleware, then
    the handler. *)
Definition post_resolve_market (resolutionStore : Js.Object) (x_api_key : option string)
    (marketAddress winningOptionIndex : Js.Field) : Response * Js.Object :=
  match apiKeyMiddleware x_api_key with
  | Some rejected => (rejected, resolutionStore)
  | None => resolve_market resolutionStore marketAddress winningOptionIndex
  end.

(** *** [GET /get-resolution/:marketAddress]

    [marketAddress] is a route parameter: a non-empty path segment. *)
Definition get_resolution (resolutionStore : Js.Object) (marketAddress : string) : Response :=
  match Js.get resolutionStore (Js.toLowerCase marketAddress) with
  | Js.Undefined => json 404 (ErrorBody "未找到该市场的裁决结果.")
  | winningOptionIndex => json 200 (ResolutionBody winningOptionIndex)
  end.

(** *** Routing *)

Inductive Request : Type :=
| GET_metadata (marketAddress tokenId : string)
| POST_resolve_market (x_api_key : option string)
    (marketAddress winningOptionIndex : Js.Field)
| GET_get_resolution (marketAddress : string).

(** One request against the chain as it is and the store as it is; the
    answer and the store afterwards. *)
Definition handle (chain : Chain) (resolutionStore : Js.Object) (req : Request)
  : Response * Js.Object :=
  match req with
  | GET_metadata marketAddress tokenId =>
      (get_metadata chain marketAddress tokenId, resolutionStore)
  | POST_resolve_market x_api_key marketAddress winningOptionIndex =>
      post_resolve_market resolutionStore x_api_key marketAddress winningOptionIndex
  | GET_get_resolution marketAddress =>
      (get_resolution resolutionStore marketAddress, resolutionStore)
  end.

(** The requests of a trace, one after the other, on an unchanging chain. *)
Fixpoint run (chain : Chain) (resolutionStore : Js.Object) (trace : list Request)
  : Js.Object :=
  match trace with
  | [] => resolutionStore
  | req :: rest => run chain (snd (handle chain resolutionStore req)) rest
  end.

(** [req] is a store request whose address lowercases to [k]. *)
Definition stores_under (k : string) (req : Request) : Prop :=
  match req with
  | POST_resolve_market _ (Some (Js.JStr address)) _ => Js.toLowerCase address = k
  | _ => False
  end.

(** If [req] is a store request with a string address, that address is
    ASCII text and does not lowercase to [__proto__]. *)
Definition stores_plainly (req : Request) : Prop :=
  match req with
  | POST_resolve_market _ (Some (Js.JStr address)) _ =>
      Js.ascii_only address = true /\ Js.toLowerCase address <> "__proto__"
  | _ => True
  end.

(** The store keeps its prototype, and has no entry for [k]. *)
Definition untouched (k : string) (s : Js.Object) : Prop :=
  Js.proto s = Js.ProtoObject /\ Js.own s !! k = None.

End Server.

(** What a client reads off a metadata response. *)
Definition attribute (trait : string) (r : Response) : option string :=
  match body r with
  | MetadataBody m =>
      value <$> find (fun a => String.eqb (trait_type a) trait) (Metadata.attributes m)
  | _ => None
  end.

Definition image (r : Response) : option string :=
  match body r with
  | MetadataBody m => Some (Metadata.image m)
  | _ => None
  end.

(** ** The spec's words

    Predicates that follow the wording of the specification, to be compared
    with what the handlers do. *)

Module Spec.

(** "a defined (not-undefined) non-negative integer index" *)
Definition non_negative_integer (winningOptionIndex : Js.Field) : bool :=
  match winningOptionIndex with
  | Some (Js.JNum n) => 0 <=? n
  | _ => false
  end.

(** "marketAddress is empty or missing" *)
Definition empty_or_missing (marketAddress : Js.Field) : bool :=
  match marketAddress with
  | None => true
  | Some (Js.JStr s) => String.eqb s ""
  | _ => false
  end.

End Spec.

(** ** Scenarios

    Concrete configurations and chains on which the statements below are
    evaluated. *)

Module Sample.

Definition is_hex_digit (c : ascii) : bool :=
  let n := nat_of_ascii c in
  (((48 <=? n) && (n <=? 57)) || ((65 <=? n) && (n <=? 70)) || ((97 <=? n) && (n <=? 102)))%nat.

Fixpoint all_hex (s : string) : bool :=
  match s with
  | EmptyString => true
  | String c rest => is_hex_digit c && all_hex rest
  end.

(** The plain form that [ethers.isAddress] accepts: [0x] and 40 hex digits
    (the checksum of a mixed-case address is not looked at). *)
Definition hexAddress (s : string) : bool :=
  match s with
  | String "0" (String "x" digits) => (String.length digits =? 40)%nat && all_hex digits
  | _ => false
  end.

Definition market : string := "0x5FbDB2315678afecb367f032d93F642f64180aa3".
Definition nft : string := "0xe7f1725E7734CE288F8367e1Bb143E90bb3F0512".
Definition secret : string := "s3cret".

(** Stands for the engine's exponent notation where no number reaches [1e21]. *)
Definition no_exponent (x : Z) : string := "".

(** A market at [market] with the given pool of each option, total pool and
    resolution ([None]: unresolved), whose position contract at [nft] says
    that every token backs option [backs]. *)
Definition scenario (pools : list Z) (total : Z) (backs : Z) (resolved : option Z) : Chain :=
  {| positionNFT m := if String.eqb m market then Some nft else None;
     tokenOption a _ := if String.eqb a nft then Some backs else None;
     options m i :=
       if String.eqb m market && (0 <=? i)
       then MarketOption.mk "" <$> nth_error pools (Z.to_nat i)
       else None;
     totalPool m := if String.eqb m market then Some total else None;
     isResolved m :=
       if String.eqb m market
       then Some (match resolved with Some _ => true | None => false end)
       else None;
     winningOptionIndex m :=
       if String.eqb m market
       then Some (match resolved with Some w => w | None => 0 end)
       else None |}.

(** The scenario of the specification: option 0 holds 30, option 1 holds 70,
    the total is 100, the market is unresolved, the position backs option 1. *)
Definition binary_30_70 : Chain := scenario [30; 70] 100 1 None.

(** Option 0 holds 25 of 100 and is the one backed. *)
Definition quarter : Chain := scenario [25; 75] 100 0 None.

(** Three options holding 30, 70 and 100; the position backs the third. *)
Definition three_options : Chain := scenario [30; 70; 100] 200 2 None.

(** A resolved market: option 1 won, and the position backs option 1. *)
Definition resolved_won : Chain := scenario [30; 70] 100 1 (Some 1).

End Sample.

(** ** The relay as a ledger

    What the store requests of a trace that get as far as the assignment
    amount to, as a finite map: the reference against which the store
    object is compared. *)

Section Ledger.

Variable API_KEY : option string.

(** The key and the index that [req] stores, if it is a store request that
    passes the middleware and the validation with a string address, whether
    it is then answered 200 or, the log line failing, 500. *)
Definition accepted_store (req : Request) : option (string * Js.Json) :=
  match req with
  | POST_resolve_market key (Some (Js.JStr address)) (Some winner) =>
      match apiKeyMiddleware API_KEY key with
      | Some _ => None
      | None =>
          if String.eqb address "" then None
          else Some (Js.toLowerCase address, winner)
      end
  | _ => None
  end.

Definition record_store (entries : gmap string Js.Json) (req : Request)
  : gmap string Js.Json :=
  match accepted_store req with
  | Some (k, winner) => <[k := winner]> entries
  | None => entries
  end.

Definition ledger (trace : list Request) : gmap string Js.Json :=
  fold_left record_store trace ∅.

End Ledger.

(** [chain], except that [winningOptionIndex()] answers as [f] says. *)
Definition with_winningOptionIndex (chain : Chain) (f : string -> option Z) : Chain :=
  {| positionNFT := positionNFT chain;
     tokenOption := tokenOption chain;
     options := options chain;
     totalPool := totalPool chain;
     isResolved := isResolved chain;
     winningOptionIndex := f |}.

(** The tiers that tell a holder the position is ahead, or behind. *)
Definition at_advantage (t : Tier) : bool :=
  match t with
  | slight_advantage | huge_advantage => true
  | _ => false
  end.

Definition at_disadvantage (t : Tier) : bool :=
  match t with
  | slight_disadvantage | huge_disadvantage => true
  | _ => false
  end.

(** ** Start-up

    The top of [index.js] and the callback of [app.listen]: what the process
    does with its environment, once the port is bound. *)

Module Startup.

(** [process.env], as far as it is read. *)
Record Env : Type := mkEnv {
  PORT : option string;
  SEPOLIA_RPC_URL : option string;
  API_KEY : option string
}.

Inductive Console : Type :=
| console_log (text : string)
| console_warn (text : string)
| console_error (text : string).

Inductive Outcome : Type :=
| Exited (code : Z) (console : list Console)
| Listening (port : string) (console : list Console).

(** [process.env.PORT || 3000], as the text that [app.listen] and the log
    line get. *)
Definition port (env : Env) : string :=
  if Js.falsy_header (PORT env) then "3000"
  else match PORT env with Some text => text | None => "3000" end.

Definition start (env : Env) : Outcome :=
  if Js.falsy_header (SEPOLIA_RPC_URL env)
  then Exited 1 [console_error "错误: 请在 .env 文件中配置 SEPOLIA_RPC_URL"]
  else
    Listening (port env)
      [ console_log ("dBet 后端服务器已启动, 监听端口: " ++ port env);
        if Js.falsy_header (API_KEY env)
        then console_warn "警告: 未在 .env 文件中设置 API_KEY。"
        else console_log
               ("受保护接口的 API Key: "
                ++ match API_KEY env with Some key => key | None => "" end) ].

End Startup.

(** ** The oracle script

    [resolution-script.js], lines 1 to 58: the source that a Chainlink
    Functions node runs with [args] and the [Functions] helpers. *)

Module Oracle.

(** What [Functions.makeHttpRequest] resolves to: an object with
    [error: true], without a [response] ([None]) or with one, of which
    [data] is given; or a response with [data]. [data] is [undefined] or
    parsed JSON. *)
Inductive ApiResponse : Type :=
| Failure (response : option Js.Field)
| Success (data : Js.Field).

Inductive ScriptError : Type :=
| MissingArgument          (* the [Error] thrown on [!args[0]] *)
| RequestFailed            (* the [Error] thrown on [apiResponse.error] *)
| MissingField             (* the [Error] thrown on a missing [winningOptionIndex] *)
| TypeError                (* a property read on [undefined] or [null], or a
                              value that cannot be converted to text *)
| EncodingFailed.          (* thrown by [Functions.encodeUint256] *)

(** [`${x}`] for [undefined] or a parsed value. *)
Definition stringifiable_field (x : Js.Field) : bool :=
  match x with
  | None => true
  | Some v => Js.stringifiable v
  end.

Definition apiURL (marketAddress : string) : string :=
  "https://backend-5z8l.onrender.com/get-resolution/" ++ marketAddress.

(** [responseData.winningOptionIndex]: [None] when the read throws,
    [Some None] when it yields [undefined]. *)
Definition read_winningOptionIndex (responseData : Js.Field) : option Js.Field :=
  match responseData with
  | None => None
  | Some Js.JNull => None
  | Some (Js.JObj fields) => Some (Js.assoc "winningOptionIndex" fields)
  | Some _ => Some None
  end.

Section Script.

(** The bytes handed back to the contract. *)
Variable Bytes : Type.
(** [Functions.makeHttpRequest({ url, method: "GET", timeout: 5000 })] *)
Variable makeHttpRequest : string -> ApiResponse.
(** [Functions.encodeUint256]; [None] when it throws. *)
Variable encodeUint256 : Js.Json -> option Bytes.

(** The script, line by line: the check of [args[0]]; the request; on
    [apiResponse.error], the read of [apiResponse.response.data] and the
    [Error] whose message is built from it; the read of
    [responseData.winningOptionIndex]; the log line built from the index; the
    encoding. *)
Definition script (args : list string) : ScriptError + Bytes :=
  match args with
  | [] => inl MissingArgument
  | marketAddress :: _ =>
      if String.eqb marketAddress "" then inl MissingArgument
      else
        match makeHttpRequest (apiURL marketAddress) with
        | Failure None => inl TypeError
        | Failure (Some response_data) =>
            if stringifiable_field response_data
            then inl RequestFailed
            else inl TypeError
        | Success responseData =>
            match read_winningOptionIndex responseData with
            | None => inl TypeError
            | Some None => inl MissingField
            | Some (Some winningOptionIndex) =>
                if Js.stringifiable winningOptionIndex
                then
                  match encodeUint256 winningOptionIndex with
                  | Some encodedResult => inr encodedResult
                  | None => inl EncodingFailed
                  end
                else inl TypeError
            end
        end
  end.

End Script.

(** *** The relay, seen from the script

    [res.json(x)] sends [JSON.stringify(x)], which leaves out a property whose
    value is a function and writes an object without enumerable properties
    as [{}]; the HTTP client parses the text back, and reports every status
    outside 2xx as an error that carries the response. *)
Definition stringify_resolution (winningOptionIndex : Js.Value) : Js.Json :=
  match winningOptionIndex with
  | Js.Val v => Js.JObj [("winningOptionIndex", v)]
  | Js.ObjectPrototype => Js.JObj [("winningOptionIndex", Js.JObj [])]
  | Js.Builtin _ => Js.JObj []
  | Js.Undefined => Js.JObj []
  end.

(** [JSON.stringify] of the other bodies, parsed back. The page that Express
    sends for an uncaught error is text, not JSON: the client keeps it as a
    string, of which only its being a string matters here. *)
Definition stringify_attribute (a : Attribute) : Js.Json :=
  Js.JObj [("trait_type", Js.JStr (trait_type a)); ("value", Js.JStr (value a))].

Definition stringify (b : Body) : Js.Json :=
  match b with
  | ErrorBody error => Js.JObj [("error", Js.JStr error)]
  | StoredBody message market winner =>
      Js.JObj [("message", Js.JStr message); ("market", Js.JStr market); ("winner", winner)]
  | ResolutionBody winningOptionIndex => stringify_resolution winningOptionIndex
  | MetadataBody m =>
      Js.JObj [("name", Js.JStr (Metadata.name m));
               ("description", Js.JStr (Metadata.description m));
               ("image", Js.JStr (Metadata.image m));
               ("attributes", Js.JArr (map stringify_attribute (Metadata.attributes m)))]
  | DefaultErrorPage => Js.JStr ""
  end.

(** An answer of the server as the script's HTTP client reports it. *)
Definition deliver (r : Response) : ApiResponse :=
  if (200 <=? status r) && (status r <? 300)
  then Success (Some (stringify (body r)))
  else Failure (Some (Some (stringify (body r)))).

(** A network on which the request for [marketAddress] reaches the relay
    whose store is [resolutionStore]. *)
Definition reaches_relay (makeHttpRequest : string -> ApiResponse)
    (resolutionStore : Js.Object) (marketAddress : string) : Prop :=
  makeHttpRequest (apiURL marketAddress)
  = deliver (get_resolution resolutionStore marketAddress).

End Oracle.

(** ** More scenarios *)

Module Fixture.

(** The 32 bytes of [n], most significant first. *)
Definition bytes32 (n : Z) : list Z :=
  map (fun i => (n / 256 ^ (31 - Z.of_nat i)) mod 256) (seq 0 32).

(** [Functions.encodeUint256] on parsed JSON: a non-negative integer that
    fits in 256 bits is encoded, anything else is refused. *)
Definition encodeUint256 (x : Js.Json) : option (list Z) :=
  match x with
  | Js.JNum n => if (0 <=? n) && (n <? 2 ^ 256) then Some (bytes32 n) else None
  | _ => None
  end.

Fixpoint strip_prefix (prefix s : string) : option string :=
  match prefix, s with
  | EmptyString, _ => Some s
  | String c prefix', String d s' =>
      if Ascii.eqb c d then strip_prefix prefix' s' else None
  | String _ _, EmptyString => None
  end.

(** A network that routes what follows the relay's URL to the relay. *)
Definition network (resolutionStore : Js.Object) (url : string) : Oracle.ApiResponse :=
  match strip_prefix (Oracle.apiURL "") url with
  | Some marketAddress =>
      Oracle.deliver (get_resolution resolutionStore marketAddress)
  | None => Oracle.Failure None
  end.

(** The store after one accepted request that stores index 1 for
    [Sample.market]. *)
Definition stored_one : Js.Object :=
  snd (post_resolve_market (Some Sample.secret) Js.empty_object (Some Sample.secret)
         (Some (Js.JStr Sample.market)) (Some (Js.JNum 1))).

(** An environment with an RPC URL and no key, and one with the key. *)
Definition env_without_key : Startup.Env :=
  Startup.mkEnv None (Some "https://rpc.sepolia.org") None.


End Fixture.

(** * Properties *)

(** ** Strings and objects *)

Module JsFacts.
Import Js.

Lemma lower_ascii_idempotent (c : ascii) : lower_ascii (lower_ascii c) = lower_ascii c.
Proof. destruct c as [[] [] [] [] [] [] [] []]; reflexivity. Qed.

Lemma toLowerCase_idempotent (s : string) : toLowerCase (toLowerCase s) = toLowerCase s.
Proof.
  induction s as [|c rest IH]; simpl; [reflexivity|].
  now rewrite lower_ascii_idempotent, IH.
Qed.

Lemma toLowerCase_empty (s : string) : toLowerCase s = "" <-> s = "".
Proof. destruct s; simpl; split; intros H; try reflexivity; discriminate H. Qed.

Lemma falsy_string (s : string) : falsy (Some (JStr s)) = false <-> s <> "".
Proof.
  simpl. destruct (String.eqb_spec s ""); split; intros H; congruence.
Qed.

(** An assignment under any name but [__proto__] creates or overwrites an own
    property, and a read of that name returns it. *)
Lemma get_set_same (o : Object) (k : string) (v : Json) :
  k <> "__proto__" -> get (set o k v) k = Val v.
Proof.
  intros Hk. unfold set.
  destruct (String.eqb_spec k "__proto__") as [->|_]; [congruence|].
  simpl. destruct (own o !! k); unfold get; simpl; now rewrite lookup_insert_eq.
Qed.

Lemma set_keeps_proto (o : Object) (k : string) (v : Json) :
  k <> "__proto__" -> proto (set o k v) = proto o.
Proof.
  intros Hk. unfold set.
  destruct (String.eqb_spec k "__proto__") as [->|_]; [congruence|].
  simpl. now destruct (own o !! k).
Qed.

Lemma set_own (o : Object) (k : string) (v : Json) :
  k <> "__proto__" -> own (set o k v) = <[k := v]> (own o).
Proof.
  intros Hk. unfold set.
  destruct (String.eqb_spec k "__proto__") as [->|_]; [congruence|].
  simpl. now destruct (own o !! k).
Qed.

(** ... and leaves every other name as it was. *)
Lemma get_set_other (o : Object) (k k' : string) (v : Json) :
  k <> "__proto__" -> k' <> k -> get (set o k v) k' = get o k'.
Proof.
  intros Hk Hne. unfold get.
  rewrite set_own, set_keeps_proto by assumption.
  now rewrite lookup_insert_ne by congruence.
Qed.

(** On [Object.prototype] itself the setter ignores a number, a string or a
    boolean: the object is unchanged. *)
Lemma set_proto_primitive (o : Object) (v : Json) :
  own o !! "__proto__" = None -> reaches_proto_setter (proto o) = true ->
  match v with JObj _ | JArr _ | JNull => False | _ => True end ->
  set o "__proto__" v = o.
Proof.
  intros Hown Hreach Hv. unfold set. rewrite Hown, Hreach. simpl.
  destruct v; simpl; try reflexivity; contradiction.
Qed.

Lemma inherited_lowercase_spec (k : string) :
  mem k ("__proto__" :: object_prototype_methods) = true ->
  toLowerCase k = k -> In k inherited_lowercase.
Proof.
  unfold mem. rewrite existsb_exists. intros (name & Hin & Heq) Hlow.
  apply String.eqb_eq in Heq. subst name.
  simpl in Hin.
  repeat (destruct Hin as [<-|Hin]; [first [now left | now right; left | discriminate Hlow]|]).
  contradiction.
Qed.

Lemma object_prototype_get_undefined (p : Prototype) (k : string) :
  ~ In k inherited_lowercase -> toLowerCase k = k ->
  object_prototype_get p k = Undefined.
Proof.
  intros Hnot Hlow. unfold object_prototype_get.
  destruct (String.eqb_spec k "__proto__") as [->|Hp]; [exfalso; apply Hnot; simpl; auto|].
  destruct (String.eqb_spec k "constructor") as [->|Hc]; [exfalso; apply Hnot; simpl; auto|].
  destruct (mem k object_prototype_methods) eqn:Hmem; [|reflexivity].
  exfalso. apply Hnot. apply inherited_lowercase_spec; [|assumption].
  unfold mem in *. simpl. simpl in Hmem. now rewrite Hmem, orb_true_r.
Qed.

End JsFacts.

(** ** The resolution relay *)

Section Relay.

Variable API_KEY : option string.

(** *** The API key *)

(** The middleware lets a request through exactly when it carries a non-empty
    key equal to a configured one. *)
Lemma apiKeyMiddleware_next (provided : option string) :
  apiKeyMiddleware API_KEY provided = None <->
  exists key, provided = Some key /\ key <> "" /\ API_KEY = Some key.
Proof.
  unfold apiKeyMiddleware.
  destruct provided as [p|], API_KEY as [k|]; simpl.
  - destruct (String.eqb_spec p ""), (String.eqb_spec p k); simpl; split;
      try discriminate; try (intros (key & Hp & Hne & Hk); congruence).
    intros _. exists p. repeat split; congruence.
  - destruct (String.eqb_spec p ""); simpl; split;
      try discriminate; intros (key & _ & _ & Hk); discriminate Hk.
  - split; [discriminate | intros (key & Hp & _); discriminate Hp].
  - split; [discriminate | intros (key & Hp & _); discriminate Hp].
Qed.

Lemma apiKeyMiddleware_rejects (provided : option string) (r : Response) :
  apiKeyMiddleware API_KEY provided = Some r -> status r = 401.
Proof.
  unfold apiKeyMiddleware.
  destruct (_ || _); [|discriminate]. intros [= <-]. reflexivity.
Qed.

(** The handler behind the middleware answers 400, 500 or 200, never 401. *)
Lemma resolve_market_status (s : Js.Object) (m w : Js.Field) :
  let r := fst (resolve_market s m w) in
  status r = 400 \/ status r = 500 \/ status r = 200.
Proof.
  unfold resolve_market.
  destruct (Js.falsy m); [now left|].
  destruct w as [winner|]; [|now left].
  destruct m as [[|b|n|address|elems|fields]|]; simpl; auto.
  destruct (Js.stringifiable winner); simpl; auto.
Qed.

(** A request refused by the validation leaves the store as it was. *)
Lemma resolve_market_400_unchanged (s : Js.Object) (m w : Js.Field) :
  status (fst (resolve_market s m w)) = 400 -> snd (resolve_market s m w) = s.
Proof.
  unfold resolve_market.
  destruct (Js.falsy m); [reflexivity|].
  destruct w as [winner|]; [|reflexivity].
  destruct m as [[|b|n|address|elems|fields]|]; simpl; try reflexivity.
  destruct (Js.stringifiable winner); simpl; discriminate.
Qed.

(** *** Validation *)

(** After the middleware: 400 exactly when [marketAddress] is falsy or
    [winningOptionIndex] is [undefined]. *)
Lemma resolve_market_400 (s : Js.Object) (m w : Js.Field) :
  status (fst (resolve_market s m w)) = 400 <-> Js.falsy m = true \/ w = None.
Proof.
  unfold resolve_market.
  destruct (Js.falsy m) eqn:Hm; [simpl; tauto|].
  destruct w as [winner|]; [|simpl; tauto].
  destruct m as [[|b|n|address|elems|fields]|]; simpl;
    try destruct (Js.stringifiable winner); simpl; split;
    try discriminate; intros [H|H]; discriminate H.
Qed.

(** A non-empty string with a defined index: the assignment is made,
    whether or not the log line can be built afterwards. *)
Lemma resolve_market_written (s : Js.Object) (address : string) (winner : Js.Json) :
  address <> "" ->
  snd (resolve_market s (Some (Js.JStr address)) (Some winner))
  = Js.set s (Js.toLowerCase address) winner.
Proof.
  intros Hne. unfold resolve_market.
  apply JsFacts.falsy_string in Hne. rewrite Hne.
  now destruct (Js.stringifiable winner).
Qed.

(** ... and when the index can be converted to text, the pair is echoed. *)
Lemma resolve_market_200 (s : Js.Object) (address : string) (winner : Js.Json) :
  address <> "" -> Js.stringifiable winner = true ->
  resolve_market s (Some (Js.JStr address)) (Some winner) =
  (json 200 (StoredBody "裁决结果已成功存储." address winner),
   Js.set s (Js.toLowerCase address) winner).
Proof.
  intros Hne Htext. unfold resolve_market.
  apply JsFacts.falsy_string in Hne. now rewrite Hne, Htext.
Qed.

(** ... and when it cannot, Express answers 500 after the write. *)
Lemma resolve_market_log_fails (s : Js.Object) (address : string) (winner : Js.Json) :
  address <> "" -> Js.stringifiable winner = false ->
  resolve_market s (Some (Js.JStr address)) (Some winner) =
  (json 500 DefaultErrorPage, Js.set s (Js.toLowerCase address) winner).
Proof.
  intros Hne Htext. unfold resolve_market.
  apply JsFacts.falsy_string in Hne. now rewrite Hne, Htext.
Qed.

(** *** Store, then fetch *)

(** For every address that is not empty and does not lowercase to
    [__proto__], and every defined index (the number 0 included): after a
    store that passed the key check and the validation, a fetch under any
    casing of the address returns exactly the stored index with 200; the
    store itself was answered 200 if the index can be converted to text. *)
Lemma store_then_fetch (s : Js.Object) (key a a' : string) (winner : Js.Json) :
  apiKeyMiddleware API_KEY (Some key) = None ->
  a <> "" -> Js.toLowerCase a <> "__proto__" ->
  Js.toLowerCase a' = Js.toLowerCase a ->
  let '(r, s') :=
    post_resolve_market API_KEY s (Some key) (Some (Js.JStr a)) (Some winner) in
  (Js.stringifiable winner = true -> status r = 200) /\
  get_resolution s' a' = json 200 (ResolutionBody (Js.Val winner)).
Proof.
  intros Hauth Hne Hproto Hcase. unfold post_resolve_market. rewrite Hauth.
  pose proof (resolve_market_written s a winner Hne) as Hwritten.
  pose proof (resolve_market_200 s a winner Hne) as Hecho.
  destruct (resolve_market s (Some (Js.JStr a)) (Some winner)) as [r s'].
  simpl in Hwritten. subst s'. split.
  - intros Htext. specialize (Hecho Htext). now injection Hecho as ->.
  - unfold get_resolution. rewrite Hcase.
    now rewrite JsFacts.get_set_same by assumption.
Qed.

(** Storing under the mixed-case form and fetching under the lowercase one,
    or the other way round. *)
Corollary store_then_fetch_lowercase (s : Js.Object) (key a : string) (winner : Js.Json) :
  apiKeyMiddleware API_KEY (Some key) = None ->
  a <> "" -> Js.toLowerCase a <> "__proto__" ->
  get_resolution
    (snd (post_resolve_market API_KEY s (Some key) (Some (Js.JStr a)) (Some winner)))
    (Js.toLowerCase a) = json 200 (ResolutionBody (Js.Val winner)) /\
  get_resolution
    (snd (post_resolve_market API_KEY s (Some key)
            (Some (Js.JStr (Js.toLowerCase a))) (Some winner)))
    a = json 200 (ResolutionBody (Js.Val winner)).
Proof.
  intros Hauth Hne Hproto. split.
  - pose proof (store_then_fetch s key a (Js.toLowerCase a) winner Hauth Hne Hproto
                  (JsFacts.toLowerCase_idempotent a)) as H.
    destruct (post_resolve_market _ _ _ _ _) as [r s']. apply H.
  - assert (Hne' : Js.toLowerCase a <> "") by (now rewrite JsFacts.toLowerCase_empty).
    assert (Hproto' : Js.toLowerCase (Js.toLowerCase a) <> "__proto__")
      by (now rewrite JsFacts.toLowerCase_idempotent).
    pose proof (store_then_fetch s key (Js.toLowerCase a) a winner Hauth Hne' Hproto'
                  (eq_sym (JsFacts.toLowerCase_idempotent a))) as H.
    destruct (post_resolve_market _ _ _ _ _) as [r s']. apply H.
Qed.

(** A store leaves the answer for every other address as it was. *)
Lemma store_other_address (s : Js.Object) (a b : string) (winner : Js.Json) :
  Js.toLowerCase a <> "__proto__" -> Js.toLowerCase b <> Js.toLowerCase a ->
  get_resolution (Js.set s (Js.toLowerCase a) winner) b = get_resolution s b.
Proof.
  intros Hproto Hne. unfold get_resolution.
  now rewrite JsFacts.get_set_other by assumption.
Qed.

(** *** Absence *)

(** On a store whose prototype is untouched, an address with no own entry
    that is not one of the inherited names is answered 404; a stored 0 is
    answered 200. *)
Lemma fetch_absent (s : Js.Object) (a : string) :
  Js.proto s = Js.ProtoObject ->
  Js.own s !! Js.toLowerCase a = None ->
  ~ In (Js.toLowerCase a) Js.inherited_lowercase ->
  get_resolution s a = json 404 (ErrorBody "未找到该市场的裁决结果.").
Proof.
  intros Hproto Hown Hnot. unfold get_resolution, Js.get.
  rewrite Hown, Hproto. simpl.
  rewrite JsFacts.object_prototype_get_undefined;
    auto using JsFacts.toLowerCase_idempotent.
Qed.

Lemma fetch_zero (s : Js.Object) (a : string) :
  Js.own s !! Js.toLowerCase a = Some (Js.JNum 0) ->
  get_resolution s a = json 200 (ResolutionBody (Js.Val (Js.JNum 0))).
Proof. intros Hown. unfold get_resolution, Js.get. now rewrite Hown. Qed.

End Relay.

(** ** Traces of requests *)

Section Traces.

Variable isAddress : string -> bool.
Variable Number_toString : Z -> string.
Variable API_KEY : option string.
Variable chain : Chain.

Local Abbreviation handle := (handle isAddress Number_toString API_KEY chain).
Local Abbreviation run := (run isAddress Number_toString API_KEY chain).

Lemma handle_untouched (s : Js.Object) (k : string) (req : Request) :
  ~ stores_under k req -> ~ stores_under "__proto__" req ->
  untouched k s -> untouched k (snd (handle s req)).
Proof.
  intros Hk Hp [Hproto Hown]. unfold untouched.
  destruct req as [m t|key m w|m]; simpl; auto.
  unfold post_resolve_market.
  destruct (apiKeyMiddleware API_KEY key); simpl; auto.
  unfold resolve_market.
  destruct (Js.falsy m); simpl; auto.
  destruct w as [winner|]; simpl; auto.
  destruct m as [[|b|n|address|elems|fields]|]; simpl; auto.
  simpl in Hk, Hp.
  destruct (Js.stringifiable winner); simpl;
    rewrite JsFacts.set_keeps_proto, JsFacts.set_own by assumption;
    (split; [assumption|]); now rewrite lookup_insert_ne by assumption.
Qed.

Lemma run_untouched (trace : list Request) (k : string) :
  Forall (fun req => ~ stores_under k req /\ ~ stores_under "__proto__" req) trace ->
  forall s, untouched k s -> untouched k (run s trace).
Proof.
  induction 1 as [|req rest [Hk Hp] _ IH]; intros s Hs; simpl; [assumption|].
  apply IH. now apply handle_untouched.
Qed.

(** From the empty store, whatever requests came before: an address under
    which nothing was stored, and which is not an inherited name, is answered
    404, provided no request stored under [__proto__]. *)
Lemma never_stored_not_found (trace : list Request) (a : string) :
  Forall (fun req => ~ stores_under (Js.toLowerCase a) req /\
                     ~ stores_under "__proto__" req) trace ->
  ~ In (Js.toLowerCase a) Js.inherited_lowercase ->
  get_resolution (run Js.empty_object trace) a =
  json 404 (ErrorBody "未找到该市场的裁决结果.").
Proof.
  intros Htrace Hnot.
  destruct (run_untouched trace (Js.toLowerCase a) Htrace Js.empty_object)
    as [Hproto Hown]; [split; [reflexivity | apply lookup_empty]|].
  now apply fetch_absent.
Qed.

End Traces.

(** Why [__proto__] is set aside above: an accepted store under that name
    with an object as index replaces the prototype of the store, and the
    fields of that object then answer for addresses under which nothing was
    stored. *)
Example polluted_prototype :
  let s :=
    run Sample.hexAddress Sample.no_exponent (Some Sample.secret)
      Sample.binary_30_70 Js.empty_object
      [ POST_resolve_market (Some Sample.secret) (Some (Js.JStr "__proto__"))
          (Some (Js.JObj [("0xab", Js.JNum 7)])) ] in
  Js.own s = ∅
  /\ get_resolution s "0xAB" = json 200 (ResolutionBody (Js.Val (Js.JNum 7))).
Proof. split; reflexivity. Qed.

(** ** The relay, claim by claim *)

(** C1. The counterpart of [store_then_fetch] at the one address it leaves
    out. On a fresh server with a configured key, the accepted request
    [POST /resolve-market {marketAddress: "__proto__", winningOptionIndex: 0}]
    is answered 200 with the echo of the pair, yet the store is unchanged:
    the assignment reaches the [__proto__] setter of [Object.prototype], which
    ignores a number. [GET /get-resolution/__proto__] then answers 200 with
    [Object.prototype] as the index, not with the stored 0. *)
Theorem store_under_proto_is_lost :
  post_resolve_market (Some Sample.secret) Js.empty_object (Some Sample.secret)
    (Some (Js.JStr "__proto__")) (Some (Js.JNum 0))
  = (json 200 (StoredBody "裁决结果已成功存储." "__proto__" (Js.JNum 0)), Js.empty_object)
  /\ get_resolution Js.empty_object "__proto__"
     = json 200 (ResolutionBody Js.ObjectPrototype)
  /\ get_resolution Js.empty_object "__proto__"
     <> json 200 (ResolutionBody (Js.Val (Js.JNum 0))).
Proof.
  split; [|split].
  - reflexivity.
  - reflexivity.
  - discriminate.
Qed.

(** C3. On a fresh server, where no resolution was ever stored,
    [GET /get-resolution/constructor] is answered 200, not 404: the read of
    [resolutionStore["constructor"]] finds the function [Object] inherited
    from [Object.prototype], which is not [undefined]. *)
Theorem fetch_constructor_is_found :
  get_resolution Js.empty_object "constructor"
  = json 200 (ResolutionBody (Js.Builtin "Object"))
  /\ status (get_resolution Js.empty_object "constructor") <> 404.
Proof.
  split; [reflexivity | discriminate].
Qed.

(** C7, as stated, fails: an index that is negative, or not a number at all,
    passes the validation, is stored and is served back. *)
Lemma invalid_index_is_accepted :
  ~ (forall (s : Js.Object) (key : option string) (m w : Js.Field),
       apiKeyMiddleware (Some Sample.secret) key = None ->
       Spec.non_negative_integer w = false \/ Spec.empty_or_missing m = true ->
       status (fst (post_resolve_market (Some Sample.secret) s key m w)) = 400).
Proof.
  intros H.
  specialize (H Js.empty_object (Some Sample.secret)
                (Some (Js.JStr Sample.market)) (Some (Js.JNum (-1)))
                eq_refl (or_introl eq_refl)).
  discriminate H.
Qed.

Example negative_index_round_trip :
  let '(r, s') :=
    post_resolve_market (Some Sample.secret) Js.empty_object (Some Sample.secret)
      (Some (Js.JStr Sample.market)) (Some (Js.JNum (-1))) in
  status r = 200 /\
  get_resolution s' Sample.market = json 200 (ResolutionBody (Js.Val (Js.JNum (-1)))).
Proof. split; reflexivity. Qed.

Example text_index_round_trip :
  let '(r, s') :=
    post_resolve_market (Some Sample.secret) Js.empty_object (Some Sample.secret)
      (Some (Js.JStr Sample.market)) (Some (Js.JStr "yes")) in
  status r = 200 /\
  get_resolution s' Sample.market = json 200 (ResolutionBody (Js.Val (Js.JStr "yes"))).
Proof. split; reflexivity. Qed.

(** C7, amended. Behind the API-key check, [POST /resolve-market] answers 400
    exactly when [marketAddress] is missing or falsy (the empty string among
    them) or [winningOptionIndex] is [undefined]. A defined index passes the
    validation whatever its type or sign: with a non-empty string address
    and an index that can be converted to text for the log line, the pair is
    echoed with 200, and, unless the address lowercases to [__proto__], a
    fetch of that address then returns that index. *)
Theorem validation_rejects_exactly (API_KEY : option string) (s : Js.Object)
    (key : option string) (m w : Js.Field) :
  apiKeyMiddleware API_KEY key = None ->
  (status (fst (post_resolve_market API_KEY s key m w)) = 400
   <-> Js.falsy m = true \/ w = None)
  /\ (forall address winner,
        m = Some (Js.JStr address) -> address <> "" -> w = Some winner ->
        Js.stringifiable winner = true ->
        fst (post_resolve_market API_KEY s key m w)
        = json 200 (StoredBody "裁决结果已成功存储." address winner)
        /\ (Js.toLowerCase address <> "__proto__" ->
            get_resolution (snd (post_resolve_market API_KEY s key m w)) address
            = json 200 (ResolutionBody (Js.Val winner)))).
Proof.
  intros Hauth. unfold post_resolve_market. rewrite Hauth. split.
  - apply resolve_market_400.
  - intros address winner -> Hne -> Htext.
    rewrite resolve_market_200 by assumption. simpl.
    split; [reflexivity|]. intros Hproto.
    unfold get_resolution. now rewrite JsFacts.get_set_same by assumption.
Qed.

(** An accepted key, the address [Sample.market] and the index -1: the
    request is not refused, the pair is echoed and the index served back. *)
Lemma validation_rejects_exactly_witness :
  (apiKeyMiddleware (Some Sample.secret) (Some Sample.secret) = None
   /\ Sample.market <> "" /\ Js.stringifiable (Js.JNum (-1)) = true
   /\ Js.toLowerCase Sample.market <> "__proto__")
  /\ status (fst (post_resolve_market (Some Sample.secret) Js.empty_object
                    (Some Sample.secret) (Some (Js.JStr Sample.market))
                    (Some (Js.JNum (-1))))) <> 400
  /\ fst (post_resolve_market (Some Sample.secret) Js.empty_object
            (Some Sample.secret) (Some (Js.JStr Sample.market)) (Some (Js.JNum (-1))))
     = json 200 (StoredBody "裁决结果已成功存储." Sample.market (Js.JNum (-1)))
  /\ get_resolution
       (snd (post_resolve_market (Some Sample.secret) Js.empty_object
               (Some Sample.secret) (Some (Js.JStr Sample.market))
               (Some (Js.JNum (-1))))) Sample.market
     = json 200 (ResolutionBody (Js.Val (Js.JNum (-1)))).
Proof.
  split; [repeat split; discriminate|].
  destruct (validation_rejects_exactly (Some Sample.secret) Js.empty_object
              (Some Sample.secret) (Some (Js.JStr Sample.market))
              (Some (Js.JNum (-1))) eq_refl) as [H400 Hecho].
  split.
  - intros H. apply H400 in H. destruct H as [H|H]; discriminate H.
  - destruct (Hecho Sample.market (Js.JNum (-1)) eq_refl) as [Hr Hfetch];
      [discriminate | reflexivity | reflexivity |].
    split; [exact Hr | apply Hfetch; discriminate].
Defined.

(** C8, as stated, fails: with no key configured the endpoint is closed, not
    open. A request is rejected with 401 whatever key it carries. *)
Lemma unset_key_rejects :
  ~ (forall (s : Js.Object) (key : option string) (m w : Js.Field),
       status (fst (post_resolve_market None s key m w)) <> 401).
Proof.
  intros H.
  apply (H Js.empty_object (Some Sample.secret)
           (Some (Js.JStr Sample.market)) (Some (Js.JNum 1))).
  reflexivity.
Qed.

(** C8, amended. [POST /resolve-market] is rejected with 401 exactly when the
    [x-api-key] header is missing, empty, or different from the configured
    key; and when no key is configured, every request is rejected with 401. *)
Theorem unauthorized_exactly :
  (forall (API_KEY : option string) (s : Js.Object) (key : option string) (m w : Js.Field),
     status (fst (post_resolve_market API_KEY s key m w)) = 401
     <-> key = None \/ key = Some "" \/ key <> API_KEY)
  /\ (forall (s : Js.Object) (key : option string) (m w : Js.Field),
        status (fst (post_resolve_market None s key m w)) = 401).
Proof.
  assert (Hiff : forall API_KEY s key m w,
    status (fst (post_resolve_market API_KEY s key m w)) = 401
    <-> key = None \/ key = Some "" \/ key <> API_KEY).
  { intros API_KEY s key m w. unfold post_resolve_market.
    destruct (apiKeyMiddleware API_KEY key) as [r|] eqn:Hmw.
    - simpl. split; [intros _ | intros _; eapply apiKeyMiddleware_rejects; eassumption].
      destruct key as [k|]; [|now left].
      destruct (String.eqb_spec k "") as [->|Hne]; [now right; left|].
      right; right. intros <-.
      assert (Hnext : apiKeyMiddleware (Some k) (Some k) = None)
        by (apply apiKeyMiddleware_next; exists k; auto).
      congruence.
    - apply apiKeyMiddleware_next in Hmw as (k & -> & Hne & ->).
      split.
      + intros H401. pose proof (resolve_market_status s m w) as Hst. simpl in Hst.
        rewrite H401 in Hst. destruct Hst as [Hst|[Hst|Hst]]; discriminate Hst.
      + intros [H|[H|H]]; congruence. }
  split; [exact Hiff|].
  intros s key m w. apply Hiff.
  destruct key as [k|]; [right; right; discriminate | now left].
Qed.

(** A request rejected with 401 by the key check or with 400 by the
    validation leaves the store as it was. *)
Lemma rejected_store_leaves_store (API_KEY : option string) (s : Js.Object)
    (key : option string) (m w : Js.Field) :
  status (fst (post_resolve_market API_KEY s key m w)) = 401
  \/ status (fst (post_resolve_market API_KEY s key m w)) = 400 ->
  snd (post_resolve_market API_KEY s key m w) = s.
Proof.
  unfold post_resolve_market.
  destruct (apiKeyMiddleware API_KEY key); [reflexivity|].
  intros [H|H].
  - pose proof (resolve_market_status s m w) as Hst. simpl in Hst.
    rewrite H in Hst. destruct Hst as [Hst|[Hst|Hst]]; discriminate Hst.
  - now apply resolve_market_400_unchanged.
Qed.

(** C10. The requests answered 401 or 400 leave the store as it was
    ([rejected_store_leaves_store]), but a mapping is also written off the
    200 path. On a fresh server, the request with the accepted key, the
    address [Sample.market] and the index [{"toString": 1}] passes the
    validation and is assigned to the store; the log line that follows
    cannot convert the index to text and throws, so the request is answered
    500, and the next fetch of the address is answered 200 with that index
    where it was 404 before. *)
Theorem failed_store_is_written :
  let request :=
    post_resolve_market (Some Sample.secret) Js.empty_object (Some Sample.secret)
      (Some (Js.JStr Sample.market)) (Some (Js.JObj [("toString", Js.JNum 1)])) in
  fst request = json 500 DefaultErrorPage
  /\ snd request <> Js.empty_object
  /\ get_resolution Js.empty_object Sample.market
     = json 404 (ErrorBody "未找到该市场的裁决结果.")
  /\ get_resolution (snd request) Sample.market
     = json 200 (ResolutionBody (Js.Val (Js.JObj [("toString", Js.JNum 1)]))).
Proof.
  simpl. split; [reflexivity|]. split; [|split; reflexivity].
  intros H. apply (f_equal (fun o => get_resolution o Sample.market)) in H.
  vm_compute in H. discriminate H.
Qed.

(** ** The display boundary *)

Module NumFacts.
Import Num.

(** Below [2^53] the conversion to a number is exact. *)
Lemma Number_exact (q : Z) : Z.abs q < 2 ^ 53 -> Number q = q.
Proof.
  intros Hq. unfold Number.
  destruct (Z.ltb_spec (Z.log2 (Z.abs q)) 53) as [_|Hlog]; [reflexivity|].
  exfalso.
  destruct (Z.eq_dec (Z.abs q) 0) as [H0|H0].
  - rewrite H0 in Hlog. simpl in Hlog. lia.
  - assert (Z.log2 (Z.abs q) < 53) by (apply Z.log2_lt_pow2; lia). lia.
Qed.

Lemma append_assoc (a b c : string) : ((a ++ b) ++ c = a ++ (b ++ c))%string.
Proof.
  induction a as [|ch a IH]; [reflexivity|].
  change (String ch ((a ++ b) ++ c) = String ch (a ++ (b ++ c)))%string.
  now rewrite IH.
Qed.

(** Below [2^53], two fractional zeros follow the digits of the integer. *)
Lemma toFixed2_exact (Number_toString : Z -> string) (x : Z) :
  Z.abs x < 2 ^ 53 -> toFixed2 Number_toString x = (decimal x ++ ".00")%string.
Proof.
  intros Hx. unfold toFixed2.
  destruct (Z.ltb_spec (Z.abs x) (10 ^ 21)) as [_|Hbig]; [reflexivity|].
  exfalso. assert (2 ^ 53 < 10 ^ 21) by reflexivity. lia.
Qed.

(** A pool that is part of the total gives a quotient of at most 100. *)
Lemma share_quotient_small (pool total : Z) :
  0 <= pool <= total -> 0 < total -> Z.abs ((pool * 100) ÷ total) < 2 ^ 53.
Proof.
  intros Hpool Hpos. rewrite Z.quot_div_nonneg by lia.
  assert (0 <= pool * 100 / total) by (apply Z.div_pos; lia).
  assert (pool * 100 / total <= 100).
  { apply Z.div_le_upper_bound; lia. }
  assert (100 < 2 ^ 53) by reflexivity. lia.
Qed.

End NumFacts.

(** ** The metadata renderer *)

Lemma unresolvedTier_intervals (p : Z) :
  (75 < p -> unresolvedTier p = huge_advantage) /\
  (55 < p <= 75 -> unresolvedTier p = slight_advantage) /\
  (p < 25 -> unresolvedTier p = huge_disadvantage) /\
  (25 <= p < 45 -> unresolvedTier p = slight_disadvantage) /\
  (45 <= p <= 55 -> unresolvedTier p = initial).
Proof.
  unfold unresolvedTier.
  destruct (Z.gtb_spec p 75), (Z.gtb_spec p 55), (Z.ltb_spec p 25), (Z.ltb_spec p 45);
    repeat split; intros; solve [reflexivity | lia].
Qed.

Section Rendering.

Variable isAddress : string -> bool.
Variable Number_toString : Z -> string.
Variable chain : Chain.
Variables marketAddress tokenId nftAddress : string.
Variable userOptionIndex : Z.
Variables option0 option1 : MarketOption.t.
Variable total : Z.
(** [None]: the market is unresolved; [Some w]: resolved, option [w] won. *)
Variable resolution : option Z.

Local Abbreviation response := (get_metadata isAddress Number_toString chain marketAddress tokenId).
Local Abbreviation document := (document Number_toString).
Local Abbreviation toFixed2 := (Num.toFixed2 Number_toString).

(** The address is well formed and every read that the request issues
    succeeds. *)
Hypothesis address_ok : isAddress marketAddress = true.
Hypothesis read_positionNFT : positionNFT chain marketAddress = Some nftAddress.
Hypothesis read_tokenOption : tokenOption chain nftAddress tokenId = Some userOptionIndex.
Hypothesis read_option0 : options chain marketAddress 0 = Some option0.
Hypothesis read_option1 : options chain marketAddress 1 = Some option1.
Hypothesis read_totalPool : totalPool chain marketAddress = Some total.
Hypothesis read_resolution :
  match resolution with
  | None => isResolved chain marketAddress = Some false
  | Some winningIndex =>
      isResolved chain marketAddress = Some true /\
      winningOptionIndex chain marketAddress = Some winningIndex
  end.

Local Abbreviation pool := (userOptionPool userOptionIndex option0 option1).
Local Abbreviation p := (odds userOptionIndex option0 option1 total).

(** The document that the request is answered with. *)
Lemma get_metadata_ok :
  response =
  json 200 (MetadataBody
    (document tokenId
       (imageUrls match resolution with
                  | Some winningIndex => resolvedTier winningIndex userOptionIndex
                  | None => unresolvedTier p
                  end)
       p
       match resolution with
       | Some winningIndex => resolvedResult winningIndex userOptionIndex
       | None => "Pending"
       end)).
Proof.
  unfold get_metadata, metadata.
  rewrite address_ok, read_positionNFT. simpl.
  rewrite read_tokenOption. simpl.
  rewrite read_option0. simpl. rewrite read_option1. simpl.
  rewrite read_totalPool. simpl.
  destruct resolution as [winningIndex|].
  - destruct read_resolution as [-> ->]. reflexivity.
  - rewrite read_resolution. reflexivity.
Qed.

Lemma odds_attribute :
  attribute "Your Option Odds" response
  = Some (toFixed2 p ++ "%")%string.
Proof. rewrite get_metadata_ok. reflexivity. Qed.

(** C2, amended. On an unresolved market the image is the one of the tier
    picked by the first matching rule on the odds [p]: above 75
    [huge_advantage], above 55 [slight_advantage], below 25
    [huge_disadvantage], below 45 [slight_disadvantage], else [initial]. So 76
    gives [huge_advantage], 75 gives [slight_advantage] (the rule [> 55]
    matches), 25 gives [slight_disadvantage] (the rule [< 45] matches), and
    50 and the whole band from 45 to 55 give [initial]. *)
Theorem unresolved_tier_selection :
  resolution = None ->
  image response = Some (imageUrls (unresolvedTier p))
  /\ ((75 < p -> unresolvedTier p = huge_advantage) /\
      (55 < p <= 75 -> unresolvedTier p = slight_advantage) /\
      (p < 25 -> unresolvedTier p = huge_disadvantage) /\
      (25 <= p < 45 -> unresolvedTier p = slight_disadvantage) /\
      (45 <= p <= 55 -> unresolvedTier p = initial))
  /\ unresolvedTier 76 = huge_advantage
  /\ unresolvedTier 75 = slight_advantage
  /\ unresolvedTier 25 = slight_disadvantage
  /\ unresolvedTier 50 = initial
  /\ unresolvedTier 45 = initial
  /\ unresolvedTier 55 = initial.
Proof.
  intros Hres. split; [|split; [apply unresolvedTier_intervals | repeat split]].
  rewrite get_metadata_ok, Hres. reflexivity.
Qed.

(** C4. On a resolved market the [Result] attribute is [Won] exactly when the
    winning option index read from the market equals the option index read
    for the position, as integers, and [Lost] otherwise; on an unresolved
    market it is [Pending], whatever the odds. *)
Theorem result_attribute :
  match resolution with
  | None => attribute "Result" response = Some "Pending"
  | Some winningIndex =>
      (attribute "Result" response = Some "Won"
       <-> winningIndex = userOptionIndex) /\
      (attribute "Result" response = Some "Lost"
       <-> winningIndex <> userOptionIndex)
  end.
Proof.
  rewrite get_metadata_ok.
  destruct resolution as [winningIndex|]; [|reflexivity].
  unfold attribute, resolvedResult. simpl.
  destruct (Z.eqb_spec winningIndex userOptionIndex) as [Heq|Hne];
    split; split; intros H; try reflexivity; try assumption;
    try discriminate H; try contradiction.
Qed.

(** C5, amended. The odds shown are computed from the pool of the option
    that [tokenOption] returns for the token when that option is 0 or 1, the
    two options the renderer reads; the tier of an unresolved market follows
    those odds. For any other option index the pool of option 1 is used. *)
Theorem odds_from_backed_option :
  (forall backed : MarketOption.t,
     userOptionIndex = 0 \/ userOptionIndex = 1 ->
     options chain marketAddress userOptionIndex = Some backed ->
     attribute "Your Option Odds" response
     = Some (toFixed2 (oddsOf (MarketOption.totalPool backed) total) ++ "%")%string
     /\ (resolution = None ->
         image response
         = Some (imageUrls (unresolvedTier (oddsOf (MarketOption.totalPool backed) total)))))
  /\ (userOptionIndex <> 0 ->
      attribute "Your Option Odds" response
      = Some (toFixed2 (oddsOf (MarketOption.totalPool option1) total) ++ "%")%string).
Proof.
  split.
  - intros backed Hindex Hbacked.
    assert (Hp : p = oddsOf (MarketOption.totalPool backed) total).
    { unfold odds, userOptionPool.
      destruct Hindex as [H|H]; rewrite H in Hbacked |- *; simpl.
      - rewrite read_option0 in Hbacked. now injection Hbacked as ->.
      - rewrite read_option1 in Hbacked. now injection Hbacked as ->. }
    split.
    + rewrite odds_attribute. now rewrite Hp.
    + intros Hres. rewrite get_metadata_ok, Hres. unfold image. simpl. now rewrite Hp.
  - intros Hne. rewrite odds_attribute. unfold odds, userOptionPool.
    destruct (Z.eqb_spec userOptionIndex 0); [contradiction | reflexivity].
Qed.

(** C6, amended. With a total pool of 0 the odds shown are [50.00%],
    whatever the other reads returned. Otherwise they are the quotient of
    the truncating division of [stake * 100] by the total, computed on the
    integers and only then converted to a number and to text, where [stake]
    is the pool that the renderer selects: the pool of option 0 for a
    position that backs option 0, the pool of option 1 for a position that
    backs any other option - the position's own option when that is 0 or 1.
    The text is the quotient followed by two fractional zeros as long as the
    quotient is below [2^53]; beyond, the conversion rounds the quotient to
    the nearest double, which is what is shown, in plain decimal below
    [1e21] and in the engine's exponent notation from there on. *)
Theorem odds_display_of_selected_pool :
  (total = 0 ->
   attribute "Your Option Odds" response = Some "50.00%")
  /\ (0 < total ->
      let stake :=
        if userOptionIndex =? 0
        then MarketOption.totalPool option0
        else MarketOption.totalPool option1 in
      let q := (stake * 100) ÷ total in
      (0 <= stake -> q * total <= stake * 100 < (q + 1) * total)
      /\ (Z.abs q < 2 ^ 53 ->
          attribute "Your Option Odds" response
          = Some (Num.decimal q ++ ".00%")%string)
      /\ (Z.abs (Num.Number q) < 10 ^ 21 ->
          attribute "Your Option Odds" response
          = Some (Num.decimal (Num.Number q) ++ ".00%")%string)
      /\ (10 ^ 21 <= Z.abs (Num.Number q) ->
          attribute "Your Option Odds" response
          = Some (Number_toString (Num.Number q) ++ "%")%string))
  /\ (forall backed : MarketOption.t,
        userOptionIndex = 0 \/ userOptionIndex = 1 ->
        options chain marketAddress userOptionIndex = Some backed ->
        (if userOptionIndex =? 0
         then MarketOption.totalPool option0
         else MarketOption.totalPool option1)
        = MarketOption.totalPool backed).
Proof.
  split; [|split].
  - intros Hzero. rewrite odds_attribute. unfold odds, oddsOf.
    rewrite Hzero. reflexivity.
  - intros Hpos stake q.
    assert (Hp : p = Num.Number q).
    { unfold odds, oddsOf, userOptionPool.
      destruct (Z.gtb_spec total 0); [reflexivity | lia]. }
    assert (Hplain : Z.abs (Num.Number q) < 10 ^ 21 ->
                     attribute "Your Option Odds" response
                     = Some (Num.decimal (Num.Number q) ++ ".00%")%string).
    { intros Hsmall. rewrite odds_attribute, Hp. unfold Num.toFixed2.
      destruct (Z.ltb_spec (Z.abs (Num.Number q)) (10 ^ 21)); [|lia].
      now rewrite NumFacts.append_assoc. }
    split; [|split; [|split]].
    + intros Hstake. unfold q. rewrite Z.quot_div_nonneg by lia.
      pose proof (Z.div_mod (stake * 100) total ltac:(lia)) as Hdm.
      pose proof (Z.mod_pos_bound (stake * 100) total Hpos) as Hmod.
      nia.
    + intros Hq. pose proof (NumFacts.Number_exact q Hq) as Hexact.
      rewrite Hexact in Hplain. apply Hplain.
      assert (2 ^ 53 < 10 ^ 21) by reflexivity. lia.
    + exact Hplain.
    + intros Hbig. rewrite odds_attribute, Hp. unfold Num.toFixed2.
      destruct (Z.ltb_spec (Z.abs (Num.Number q)) (10 ^ 21)); [lia | reflexivity].
  - intros backed Hindex Hbacked.
    destruct Hindex as [H|H]; rewrite H in Hbacked |- *; simpl.
    + rewrite read_option0 in Hbacked. now injection Hbacked as ->.
    + rewrite read_option1 in Hbacked. now injection Hbacked as ->.
Qed.

End Rendering.

(** ** The renderer on the scenarios *)

Section Scenarios.
Import Sample.

Local Abbreviation get_metadata := (get_metadata hexAddress no_exponent).

(** The scenario of the specification: odds of 70 select [slight_advantage]. *)
Lemma unresolved_tier_selection_witness :
  (hexAddress market = true
   /\ positionNFT binary_30_70 market = Some nft
   /\ tokenOption binary_30_70 nft "7" = Some 1
   /\ options binary_30_70 market 0 = Some (MarketOption.mk "" 30)
   /\ options binary_30_70 market 1 = Some (MarketOption.mk "" 70)
   /\ totalPool binary_30_70 market = Some 100
   /\ isResolved binary_30_70 market = Some false)
  /\ image (get_metadata binary_30_70 market "7") = Some (imageUrls slight_advantage).
Proof.
  split; [repeat split|].
  apply (unresolved_tier_selection hexAddress no_exponent binary_30_70 market "7" nft 1
           (MarketOption.mk "" 30) (MarketOption.mk "" 70) 100 None); reflexivity.
Defined.

(** C2, as stated, fails at the boundaries 75 and 25: the rules [> 55] and
    [< 45] match there, so the tier is not [initial]; at 25 the image differs
    from the initial one as well. *)
Lemma boundaries_are_not_initial :
  unresolvedTier 75 <> initial
  /\ unresolvedTier 25 <> initial
  /\ attribute "Your Option Odds" (get_metadata quarter market "7") = Some "25.00%"
  /\ image (get_metadata quarter market "7") <> Some (imageUrls initial).
Proof.
  split; [discriminate|]. split; [discriminate|]. split; [reflexivity|].
  intros H. vm_compute in H. discriminate H.
Qed.

(** Option 1 won and the position backs option 1. *)
Lemma result_attribute_witness :
  (hexAddress market = true
   /\ positionNFT resolved_won market = Some nft
   /\ tokenOption resolved_won nft "7" = Some 1
   /\ options resolved_won market 0 = Some (MarketOption.mk "" 30)
   /\ options resolved_won market 1 = Some (MarketOption.mk "" 70)
   /\ totalPool resolved_won market = Some 100
   /\ isResolved resolved_won market = Some true
   /\ winningOptionIndex resolved_won market = Some 1)
  /\ (attribute "Result" (get_metadata resolved_won market "7") = Some "Won" <-> 1 = 1).
Proof.
  split; [repeat split|].
  apply (result_attribute hexAddress no_exponent resolved_won market "7" nft 1
           (MarketOption.mk "" 30) (MarketOption.mk "" 70) 100 (Some 1));
    try reflexivity.
  split; reflexivity.
Defined.

(** C5, as stated, fails when the position backs a third option: the odds
    shown are those of option 1 (70 of 200, [35.00%]), not those of the option
    backed (100 of 200, [50.00%]). *)
Lemma third_option_shows_option1 :
  tokenOption three_options nft "7" = Some 2
  /\ options three_options market 2 = Some (MarketOption.mk "" 100)
  /\ totalPool three_options market = Some 200
  /\ attribute "Your Option Odds" (get_metadata three_options market "7") = Some "35.00%"
  /\ attribute "Your Option Odds" (get_metadata three_options market "7")
     <> Some (Num.toFixed2 no_exponent (oddsOf 100 200) ++ "%")%string.
Proof.
  repeat split. intros H. vm_compute in H. discriminate H.
Qed.

(** The scenario of the specification: a position backing option 1 is shown
    70 of 100. *)
Lemma odds_from_backed_option_witness :
  (hexAddress market = true
   /\ positionNFT binary_30_70 market = Some nft
   /\ tokenOption binary_30_70 nft "7" = Some 1
   /\ options binary_30_70 market 0 = Some (MarketOption.mk "" 30)
   /\ options binary_30_70 market 1 = Some (MarketOption.mk "" 70)
   /\ totalPool binary_30_70 market = Some 100
   /\ isResolved binary_30_70 market = Some false)
  /\ attribute "Your Option Odds" (get_metadata binary_30_70 market "7") = Some "70.00%"
  /\ image (get_metadata binary_30_70 market "7") = Some (imageUrls slight_advantage).
Proof.
  split; [repeat split|].
  destruct (odds_from_backed_option hexAddress no_exponent binary_30_70 market "7" nft 1
              (MarketOption.mk "" 30) (MarketOption.mk "" 70) 100 None
              eq_refl eq_refl eq_refl eq_refl eq_refl eq_refl eq_refl)
    as [Hbacked _].
  destruct (Hbacked (MarketOption.mk "" 70) (or_intror eq_refl) eq_refl) as [Hodds Himage].
  split; [exact Hodds | exact (Himage eq_refl)].
Defined.

(** 70 * 100 / 100 = 70, shown as [70.00%]. *)
Lemma odds_display_of_selected_pool_witness :
  (hexAddress market = true
   /\ positionNFT binary_30_70 market = Some nft
   /\ tokenOption binary_30_70 nft "7" = Some 1
   /\ options binary_30_70 market 0 = Some (MarketOption.mk "" 30)
   /\ options binary_30_70 market 1 = Some (MarketOption.mk "" 70)
   /\ totalPool binary_30_70 market = Some 100
   /\ isResolved binary_30_70 market = Some false)
  /\ (0 < 100 /\ Z.abs ((70 * 100) ÷ 100) < 2 ^ 53)
  /\ attribute "Your Option Odds" (get_metadata binary_30_70 market "7") = Some "70.00%".
Proof.
  split; [repeat split|]. split; [split; reflexivity|].
  destruct (odds_display_of_selected_pool hexAddress no_exponent binary_30_70 market "7"
              nft 1 (MarketOption.mk "" 30) (MarketOption.mk "" 70) 100 None
              eq_refl eq_refl eq_refl eq_refl eq_refl eq_refl eq_refl)
    as (_ & Hpositive & _).
  destruct (Hpositive eq_refl) as (_ & Hexact & _).
  exact (Hexact eq_refl).
Defined.

(** C6, as stated, fails when the position backs a third option: its own
    option holds 100 of 200, so the formula of the claim gives 50, but the
    stake used is the pool of option 1 and the odds shown are [35.00%]. *)
Lemma own_stake_is_not_displayed :
  tokenOption three_options nft "7" = Some 2
  /\ options three_options market 2 = Some (MarketOption.mk "" 100)
  /\ totalPool three_options market = Some 200
  /\ (100 * 100) ÷ 200 = 50
  /\ attribute "Your Option Odds" (get_metadata three_options market "7")
     = Some "35.00%"
  /\ attribute "Your Option Odds" (get_metadata three_options market "7")
     <> Some (Num.decimal ((100 * 100) ÷ 200) ++ ".00%")%string.
Proof.
  repeat split. intros H. vm_compute in H. discriminate H.
Qed.

(** With an empty pool the odds are [50.00%]. *)
Example empty_pool :
  attribute "Your Option Odds" (get_metadata (scenario [0; 0] 0 1 None) market "7")
  = Some "50.00%".
Proof. reflexivity. Qed.

(** The quotient is taken on the integers, before any conversion: converting
    the pool first would lose its last bit and give another number. *)
Example quotient_before_conversion :
  oddsOf (2 ^ 53 + 1) 1 = 900719925474099328
  /\ Num.Number (2 ^ 53 + 1) * 100 = 900719925474099200.
Proof. split; reflexivity. Qed.

End Scenarios.

(** ** The renderer and the store *)

(** C9. The answer to [GET /metadata/:marketAddress/:tokenId] is the same
    whatever the store holds, and the request leaves the store as it is: the
    outcome comes from the reads of the chain alone. The store is written by
    [POST /resolve-market], whose answer does not depend on what it held, and
    read by [GET /get-resolution/:marketAddress] only, whose answer does. *)
Theorem metadata_ignores_store :
  (forall (isAddress : string -> bool) (Number_toString : Z -> string)
          (API_KEY : option string) (chain : Chain) (s1 s2 : Js.Object)
          (marketAddress tokenId : string),
     fst (handle isAddress Number_toString API_KEY chain s1
            (GET_metadata marketAddress tokenId))
     = fst (handle isAddress Number_toString API_KEY chain s2
              (GET_metadata marketAddress tokenId))
     /\ snd (handle isAddress Number_toString API_KEY chain s1
               (GET_metadata marketAddress tokenId)) = s1)
  /\ (forall (isAddress : string -> bool) (Number_toString : Z -> string)
             (API_KEY : option string) (chain : Chain) (s1 s2 : Js.Object)
             (key : option string) (m w : Js.Field),
        fst (handle isAddress Number_toString API_KEY chain s1
               (POST_resolve_market key m w))
        = fst (handle isAddress Number_toString API_KEY chain s2
                 (POST_resolve_market key m w)))
  /\ (forall (isAddress : string -> bool) (Number_toString : Z -> string)
             (API_KEY : option string) (chain : Chain),
        fst (handle isAddress Number_toString API_KEY chain Js.empty_object
               (GET_get_resolution Sample.market))
        <> fst (handle isAddress Number_toString API_KEY chain
                  (Js.set Js.empty_object (Js.toLowerCase Sample.market) (Js.JNum 1))
                  (GET_get_resolution Sample.market))).
Proof.
  split; [|split].
  - intros. split; reflexivity.
  - intros. simpl. unfold post_resolve_market.
    destruct (apiKeyMiddleware API_KEY key); [reflexivity|].
    unfold resolve_market.
    destruct (Js.falsy m); [reflexivity|].
    destruct w as [winner|]; [|reflexivity].
    destruct m as [[|b|n|address|elems|fields]|]; try reflexivity.
    destruct (Js.stringifiable winner); reflexivity.
  - intros. simpl. intros H. vm_compute in H. discriminate H.
Qed.

(** * Further properties *)

(** ** The relay over traces *)

Module ObjectFacts.
Import Js.

Lemma set_not_proto (o : Object) (k : string) (v : Json) :
  k <> "__proto__" -> set o k v = {| own := <[k := v]> (own o); proto := proto o |}.
Proof.
  intros Hk. unfold set.
  destruct (String.eqb_spec k "__proto__") as [->|_]; [congruence|].
  simpl. now destruct (own o !! k).
Qed.

Lemma set_twice (o : Object) (k : string) (v : Json) :
  k <> "__proto__" -> set (set o k v) k v = set o k v.
Proof.
  intros Hk. rewrite !set_not_proto by assumption. simpl.
  now rewrite insert_insert_eq.
Qed.

(** Every assignment keeps the own names lowercase when the new name is. *)
Lemma set_keeps_lowercase (o : Object) (k : string) (v : Json) :
  toLowerCase k = k ->
  (forall name, is_Some (own o !! name) -> toLowerCase name = name) ->
  forall name, is_Some (own (set o k v) !! name) -> toLowerCase name = name.
Proof.
  intros Hk Hown name. unfold set.
  assert (Hins : is_Some (<[k := v]> (own o) !! name) -> toLowerCase name = name).
  { destruct (decide (k = name)) as [<-|Hne]; [auto|].
    rewrite lookup_insert_ne by assumption. apply Hown. }
  destruct (own o !! k); [exact Hins|].
  destruct (String.eqb k "__proto__" && reaches_proto_setter (proto o)); [|exact Hins].
  destruct v; simpl; apply Hown.
Qed.

End ObjectFacts.

Section RelayTraces.

Variable isAddress : string -> bool.
Variable Number_toString : Z -> string.
Variable API_KEY : option string.
Variable chain : Chain.

Local Abbreviation handle := (handle isAddress Number_toString API_KEY chain).
Local Abbreviation run := (run isAddress Number_toString API_KEY chain).
Local Abbreviation post := (post_resolve_market API_KEY).

(** One request that does not store under [__proto__], on a store whose
    prototype is untouched, does to the own properties what [record_store]
    does to the ledger. *)
Lemma handle_records (s : Js.Object) (req : Request) :
  ~ stores_under "__proto__" req -> Js.proto s = Js.ProtoObject ->
  snd (handle s req)
  = {| Js.own := record_store API_KEY (Js.own s) req; Js.proto := Js.ProtoObject |}.
Proof.
  intros Hp Hproto.
  destruct s as [entries p]. simpl in Hproto. subst p.
  destruct req as [m t|key m w|m]; try reflexivity.
  simpl. unfold post_resolve_market, resolve_market, record_store, accepted_store.
  destruct (apiKeyMiddleware API_KEY key) as [rejected|];
    destruct m as [[|b|n|address|elems|fields]|]; destruct w as [winner|]; simpl;
    try reflexivity;
    try (destruct b; reflexivity);
    try (destruct (n =? 0); reflexivity);
    try (destruct (String.eqb address ""); reflexivity).
  simpl in Hp.
  destruct (String.eqb address ""); simpl; [reflexivity|].
  destruct (Js.stringifiable winner); simpl;
    now rewrite ObjectFacts.set_not_proto by assumption.
Qed.

Lemma stores_plainly_not_proto (trace : list Request) :
  Forall stores_plainly trace ->
  Forall (fun req => ~ stores_under "__proto__" req) trace.
Proof.
  intros Htrace. induction Htrace as [|req rest Hreq _ IH]; constructor; [|exact IH].
  destruct req as [m t|key [[|b|n|address|elems|fields]|] w|m]; simpl in *; tauto.
Qed.

Lemma run_records (trace : list Request) :
  Forall (fun req => ~ stores_under "__proto__" req) trace ->
  forall s, Js.proto s = Js.ProtoObject ->
  run s trace
  = {| Js.own := fold_left (record_store API_KEY) trace (Js.own s);
       Js.proto := Js.ProtoObject |}.
Proof.
  induction 1 as [|req rest Hreq _ IH]; intros s Hproto; simpl.
  - destruct s as [entries p]. simpl in Hproto. now subst p.
  - rewrite IH by (now rewrite handle_records).
    now rewrite handle_records.
Qed.

(** X1. From the empty store, over a trace whose store requests carry
    ASCII addresses that do not lowercase to [__proto__], and for an ASCII
    address that is not one of the inherited names [constructor] and
    [__proto__] in any casing: the relay answers a fetch as the ledger says,
    200 with the index of the last store request for that address (compared
    in lowercase) that passed the key check and the validation, 404 when
    there is none. *)
Theorem fetch_after_trace (trace : list Request) (a : string) :
  Forall stores_plainly trace ->
  Js.ascii_only a = true ->
  ~ In (Js.toLowerCase a) Js.inherited_lowercase ->
  get_resolution (run Js.empty_object trace) a
  = match ledger API_KEY trace !! Js.toLowerCase a with
    | Some winner => json 200 (ResolutionBody (Js.Val winner))
    | None => json 404 (ErrorBody "未找到该市场的裁决结果.")
    end.
Proof.
  intros Htrace _ Hnot. apply stores_plainly_not_proto in Htrace.
  rewrite (run_records trace Htrace Js.empty_object eq_refl).
  unfold ledger. simpl.
  destruct (fold_left (record_store API_KEY) trace ∅ !! Js.toLowerCase a)
    as [winner|] eqn:Hlook.
  - unfold get_resolution, Js.get. simpl. now rewrite Hlook.
  - now apply fetch_absent.
Qed.

(** X2. Whatever the store held before, an earlier index for the same
    address included: after an accepted store of a non-empty address that
    does not lowercase to [__proto__], a fetch under any casing of that
    address is answered 200 with the index just stored. *)
Theorem round_trip_any_casing (s : Js.Object) (key a a' : string) (winner : Js.Json) :
  apiKeyMiddleware API_KEY (Some key) = None ->
  a <> "" -> Js.toLowerCase a <> "__proto__" ->
  Js.toLowerCase a' = Js.toLowerCase a ->
  fst (handle
         (run s [POST_resolve_market (Some key) (Some (Js.JStr a)) (Some winner)])
         (GET_get_resolution a'))
  = json 200 (ResolutionBody (Js.Val winner)).
Proof.
  intros Hauth Hne Hproto Hcase. simpl.
  pose proof (store_then_fetch API_KEY s key a a' winner Hauth Hne Hproto Hcase) as H.
  destruct (post_resolve_market _ _ _ _ _) as [r s']. apply H.
Qed.

(** X3. A store request, accepted or not, leaves the answer for every
    address with another lowercase form as it was; the addresses are ASCII
    text, and the one stored under does not lowercase to [__proto__]. *)
Theorem store_leaves_other_addresses (s : Js.Object) (key : option string)
    (m w : Js.Field) (b : string) :
  Js.ascii_only b = true ->
  (forall address, m = Some (Js.JStr address) ->
     Js.ascii_only address = true /\
     Js.toLowerCase address <> "__proto__" /\
     Js.toLowerCase address <> Js.toLowerCase b) ->
  get_resolution (snd (post s key m w)) b = get_resolution s b.
Proof.
  intros _ Hm. unfold post_resolve_market.
  destruct (apiKeyMiddleware API_KEY key); [reflexivity|].
  unfold resolve_market.
  destruct (Js.falsy m); [reflexivity|].
  destruct w as [winner|]; [|reflexivity].
  destruct m as [[|bb|n|address|elems|fields]|]; try reflexivity.
  destruct (Hm address eq_refl) as (_ & Hproto & Hne).
  destruct (Js.stringifiable winner); simpl;
    (apply store_other_address; [assumption | congruence]).
Qed.

(** X4. Repeating a store request changes nothing more: the second request
    gets the same answer and leaves the store as the first one left it (the
    address [__proto__] set aside). *)
Theorem store_idempotent (s : Js.Object) (key : option string) (m w : Js.Field) :
  (forall address, m = Some (Js.JStr address) -> Js.toLowerCase address <> "__proto__") ->
  post (snd (post s key m w)) key m w = post s key m w.
Proof.
  intros Hm. unfold post_resolve_market.
  destruct (apiKeyMiddleware API_KEY key); [reflexivity|].
  unfold resolve_market.
  destruct (Js.falsy m); [reflexivity|].
  destruct w as [winner|]; [|reflexivity].
  destruct m as [[|bb|n|address|elems|fields]|]; try reflexivity.
  destruct (Js.stringifiable winner); simpl;
    now rewrite ObjectFacts.set_twice by (now apply Hm).
Qed.

Lemma handle_keeps_lowercase (s : Js.Object) (req : Request) :
  (forall name, is_Some (Js.own s !! name) -> Js.toLowerCase name = name) ->
  forall name, is_Some (Js.own (snd (handle s req)) !! name) -> Js.toLowerCase name = name.
Proof.
  intros Hown. destruct req as [m t|key m w|m]; simpl; try exact Hown.
  unfold post_resolve_market.
  destruct (apiKeyMiddleware API_KEY key); [exact Hown|].
  unfold resolve_market.
  destruct (Js.falsy m); [exact Hown|].
  destruct w as [winner|]; [|exact Hown].
  destruct m as [[|bb|n|address|elems|fields]|]; try exact Hown.
  destruct (Js.stringifiable winner); simpl;
    (apply ObjectFacts.set_keeps_lowercase; [|exact Hown]);
    apply JsFacts.toLowerCase_idempotent.
Qed.

(** X5. Whatever requests the server has handled, every key of the store is
    its own lowercase form. *)
Theorem stored_keys_are_lowercase (trace : list Request) (name : string) :
  is_Some (Js.own (run Js.empty_object trace) !! name) -> Js.toLowerCase name = name.
Proof.
  revert name.
  assert (Hgen : forall s,
    (forall name, is_Some (Js.own s !! name) -> Js.toLowerCase name = name) ->
    forall name, is_Some (Js.own (run s trace) !! name) -> Js.toLowerCase name = name).
  { induction trace as [|req rest IH]; intros s Hown; simpl; [exact Hown|].
    apply IH. now apply handle_keeps_lowercase. }
  apply Hgen. intros name [v Hv]. simpl in Hv. now rewrite lookup_empty in Hv.
Qed.

End RelayTraces.

(** ** The store request, case by case *)

Section StoreRequest.

Variable API_KEY : option string.

Local Abbreviation post := (post_resolve_market API_KEY).

(** X6. [POST /resolve-market] is answered 200 exactly when the key is
    accepted, [marketAddress] is a non-empty string, and
    [winningOptionIndex] is defined and can be converted to text for the
    log line. *)
Theorem store_accepted_exactly (s : Js.Object) (key : option string) (m w : Js.Field) :
  status (fst (post s key m w)) = 200
  <-> apiKeyMiddleware API_KEY key = None
      /\ exists address winner,
           m = Some (Js.JStr address) /\ address <> "" /\ w = Some winner
           /\ Js.stringifiable winner = true.
Proof.
  unfold post_resolve_market.
  destruct (apiKeyMiddleware API_KEY key) as [rejected|] eqn:Hmw.
  - simpl. rewrite (apiKeyMiddleware_rejects API_KEY key rejected Hmw).
    split; [discriminate | intros [H _]; discriminate H].
  - split.
    + intros H200. split; [reflexivity|]. revert H200. unfold resolve_market.
      destruct (Js.falsy m) eqn:Hfalsy; [discriminate|].
      destruct w as [winner|]; [|discriminate].
      destruct m as [[|b|n|address|elems|fields]|]; try discriminate.
      destruct (Js.stringifiable winner) eqn:Htext; [|discriminate].
      intros _. exists address, winner.
      repeat split; try reflexivity; try assumption.
      now apply JsFacts.falsy_string.
    + intros (_ & address & winner & -> & Hne & -> & Htext).
      now rewrite resolve_market_200.
Qed.

(** X7. [POST /resolve-market] is answered 500, by Express and not by the
    handler, exactly when the key is accepted, [winningOptionIndex] is
    defined, [marketAddress] is truthy, and either [marketAddress] is not a
    string ([toLowerCase] is not a function there) or the index cannot be
    converted to text (the log line throws). In the first case the store is
    left as it was; in the second the assignment has already been made, and
    a fetch of the address returns the index, the address [__proto__] set
    aside. *)
Theorem store_server_error (s : Js.Object) (key : option string) (m w : Js.Field) :
  (status (fst (post s key m w)) = 500
   <-> apiKeyMiddleware API_KEY key = None
       /\ Js.falsy m = false
       /\ exists winner,
            w = Some winner
            /\ ((forall address, m <> Some (Js.JStr address))
                \/ Js.stringifiable winner = false))
  /\ (status (fst (post s key m w)) = 500 ->
      (forall address, m <> Some (Js.JStr address)) ->
      snd (post s key m w) = s)
  /\ (forall address winner,
        status (fst (post s key m w)) = 500 ->
        m = Some (Js.JStr address) -> w = Some winner ->
        Js.toLowerCase address <> "__proto__" ->
        get_resolution (snd (post s key m w)) address
        = json 200 (ResolutionBody (Js.Val winner))).
Proof.
  unfold post_resolve_market.
  destruct (apiKeyMiddleware API_KEY key) as [rejected|] eqn:Hmw.
  - simpl. rewrite (apiKeyMiddleware_rejects API_KEY key rejected Hmw).
    split; [split|split]; try discriminate. intros [H _]. discriminate H.
  - split; [|split].
    + unfold resolve_market.
      destruct (Js.falsy m) eqn:Hfalsy; simpl.
      { split; [discriminate|]. intros (_ & H & _). discriminate H. }
      destruct w as [winner|]; simpl.
      2:{ split; [discriminate|]. intros (_ & _ & winner & H & _). discriminate H. }
      destruct m as [[|b|n|address|elems|fields]|]; simpl;
        try (split; [|reflexivity]; intros _; repeat split;
             exists winner; split; [reflexivity|]; left; discriminate).
      destruct (Js.stringifiable winner) eqn:Htext; simpl.
      * split; [discriminate|].
        intros (_ & _ & winner' & [= <-] & [H|H]);
          [now contradiction (H address) | congruence].
      * split; [|reflexivity]. intros _. repeat split.
        exists winner. split; [reflexivity|]. now right.
    + intros _ Hnot. unfold resolve_market.
      destruct (Js.falsy m); [reflexivity|].
      destruct w as [winner|]; [|reflexivity].
      destruct m as [[|b|n|address|elems|fields]|]; try reflexivity.
      now contradiction (Hnot address).
    + intros address winner H500 -> -> Hproto.
      assert (Hne : address <> "").
      { intros ->. discriminate H500. }
      rewrite resolve_market_written by assumption.
      unfold get_resolution. now rewrite JsFacts.get_set_same by assumption.
Qed.

(** X8. A store under [__proto__] with an object as index, on a store whose
    prototype is untouched, writes no entry but replaces the prototype: the
    fields of that object then answer, with 200, for ASCII addresses under
    which nothing was stored. *)
Theorem prototype_pollution (s : Js.Object) (key a b : string)
    (fields : list (string * Js.Json)) (v : Js.Json) :
  apiKeyMiddleware API_KEY (Some key) = None ->
  Js.toLowerCase a = "__proto__" ->
  Js.ascii_only b = true ->
  Js.proto s = Js.ProtoObject ->
  Js.own s !! "__proto__" = None ->
  Js.own s !! Js.toLowerCase b = None ->
  Js.assoc (Js.toLowerCase b) fields = Some v ->
  let s' := snd (post s (Some key) (Some (Js.JStr a)) (Some (Js.JObj fields))) in
  Js.own s' = Js.own s
  /\ get_resolution s' b = json 200 (ResolutionBody (Js.Val v)).
Proof.
  intros Hauth Ha _ Hproto Hown Hb Hfield.
  assert (Hne : a <> "").
  { intros ->. discriminate Ha. }
  unfold post_resolve_market. rewrite Hauth.
  rewrite resolve_market_written by assumption. simpl.
  rewrite Ha. unfold Js.set. rewrite Hown, Hproto. simpl.
  split; [reflexivity|].
  unfold get_resolution, Js.get. simpl. rewrite Hb. simpl. now rewrite Hfield.
Qed.

End StoreRequest.

(** ** Start-up and the protected route *)

(** X9. When the server listens, the warning about the missing [API_KEY] is
    on the console exactly when the protected route is closed to everyone:
    no value of the [x-api-key] header, present or not, gets past the
    middleware. *)
Theorem warning_means_closed (env : Startup.Env) (port : string)
    (console : list Startup.Console) :
  Startup.start env = Startup.Listening port console ->
  (In (Startup.console_warn "警告: 未在 .env 文件中设置 API_KEY。") console
   <-> forall key, apiKeyMiddleware (Startup.API_KEY env) key <> None).
Proof.
  unfold Startup.start.
  destruct (Js.falsy_header (Startup.SEPOLIA_RPC_URL env)); [discriminate|].
  intros [= _ <-].
  destruct (Js.falsy_header (Startup.API_KEY env)) eqn:Hkey.
  - split; [|intros _; right; left; reflexivity].
    intros _ key Hnext.
    apply apiKeyMiddleware_next in Hnext as (k & _ & Hne & Hk).
    rewrite Hk in Hkey. simpl in Hkey.
    apply String.eqb_eq in Hkey. contradiction.
  - split.
    + intros [H|[H|[]]]; discriminate H.
    + intros Hclosed. exfalso.
      destruct (Startup.API_KEY env) as [k|] eqn:Hk; [|discriminate Hkey].
      apply (Hclosed (Some k)). apply apiKeyMiddleware_next.
      exists k. repeat split. simpl in Hkey.
      intros ->. discriminate Hkey.
Qed.


(** X11. The server never listens without an RPC URL: when it listens, the
    URL was set and not empty, and the port is the configured one, or 3000
    when [PORT] is unset or empty; when the URL is missing or empty the
    process exits with code 1 after one line on the error console. *)
Theorem start_requires_rpc_url (env : Startup.Env) :
  (forall port console,
     Startup.start env = Startup.Listening port console ->
     (exists url, Startup.SEPOLIA_RPC_URL env = Some url /\ url <> "")
     /\ (Startup.PORT env = Some port /\ port <> ""
         \/ port = "3000" /\ (Startup.PORT env = None \/ Startup.PORT env = Some "")))
  /\ (Startup.SEPOLIA_RPC_URL env = None \/ Startup.SEPOLIA_RPC_URL env = Some "" ->
      exists line, Startup.start env = Startup.Exited 1 [Startup.console_error line]).
Proof.
  unfold Startup.start, Startup.port. split.
  - intros port console.
    destruct (Startup.SEPOLIA_RPC_URL env) as [url|]; simpl; [|discriminate].
    destruct (String.eqb_spec url ""); [discriminate|].
    intros [= <- _]. split; [eauto|].
    destruct (Startup.PORT env) as [p|]; simpl; [|right; auto].
    destruct (String.eqb_spec p "") as [->|Hp]; [right; auto | left; auto].
  - intros [->| ->]; simpl; eauto.
Qed.

(** ** The metadata renderer, beyond the claims *)

Section RendererStatus.

Variable isAddress : string -> bool.
Variable Number_toString : Z -> string.

Local Abbreviation render := (get_metadata isAddress Number_toString).

(** X12. The status of [GET /metadata/:marketAddress/:tokenId] tells what
    happened: 400 exactly when the address is refused; 200 exactly when it is
    accepted and every read the handler issues succeeds (the winning index
    being read on a resolved market only); in every other case the generic
    500. Metadata is sent with 200 only. *)
Theorem metadata_status (chain : Chain) (marketAddress tokenId : string) :
  let r := render chain marketAddress tokenId in
  (status r = 400 <-> isAddress marketAddress = false)
  /\ (status r = 200 <->
      isAddress marketAddress = true
      /\ exists nftAddress userOptionIndex option0 option1 total,
           positionNFT chain marketAddress = Some nftAddress
           /\ tokenOption chain nftAddress tokenId = Some userOptionIndex
           /\ options chain marketAddress 0 = Some option0
           /\ options chain marketAddress 1 = Some option1
           /\ totalPool chain marketAddress = Some total
           /\ (isResolved chain marketAddress = Some false
               \/ isResolved chain marketAddress = Some true
                  /\ exists winningIndex,
                       winningOptionIndex chain marketAddress = Some winningIndex))
  /\ (status r <> 400 -> status r <> 200 -> r = json 500 (ErrorBody "获取元数据失败。"))
  /\ (forall doc, body r = MetadataBody doc -> status r = 200).
Proof.
  unfold get_metadata, metadata.
  destruct (isAddress marketAddress) eqn:Haddr; simpl.
  2:{ repeat split; try discriminate; try reflexivity.
      - intros [H _]. discriminate H.
      - intros H. now contradiction H. }
  destruct (positionNFT chain marketAddress) as [nftAddress|] eqn:H1; simpl;
    [destruct (tokenOption chain nftAddress tokenId) as [userOptionIndex|] eqn:H2; simpl;
     [destruct (options chain marketAddress 0) as [option0|] eqn:H3; simpl;
      [destruct (options chain marketAddress 1) as [option1|] eqn:H4; simpl;
       [destruct (totalPool chain marketAddress) as [total|] eqn:H5; simpl;
        [destruct (isResolved chain marketAddress) as [[]|] eqn:H6; simpl;
         [destruct (winningOptionIndex chain marketAddress) as [winningIndex|] eqn:H7;
          simpl| |] |] |] |] |] |];
    (split; [split; discriminate|]);
    (split;
     [split;
      [first [ discriminate
             | intros _; split; [reflexivity|];
               exists nftAddress, userOptionIndex, option0, option1, total;
               repeat split; try assumption; first [now left | right; split; eauto] ]
      | first [ reflexivity
              | intros (_ & n' & u' & a' & b' & t' & Ha & Hb & Hc & Hd & He & Hf);
                try congruence;
                assert (n' = nftAddress) by congruence; subst n';
                try congruence;
                destruct Hf as [Hf|[Hf (w' & Hw)]]; congruence ] ]
     |]);
    (split; [first [ reflexivity | intros _ H; now contradiction H ]|]);
    intros doc; first [reflexivity | discriminate].
Qed.

(** X13. On a market that is not resolved the winning index is not read:
    the answer is the same whatever [winningOptionIndex()] would return, a
    failure included. *)
Theorem unresolved_never_reads_winner (chain : Chain) (f : string -> option Z)
    (marketAddress tokenId : string) :
  isResolved chain marketAddress <> Some true ->
  render (with_winningOptionIndex chain f) marketAddress tokenId
  = render chain marketAddress tokenId.
Proof.
  intros Hres. unfold get_metadata, metadata. simpl.
  destruct (isAddress marketAddress); simpl; [|reflexivity].
  destruct (positionNFT chain marketAddress) as [nftAddress|]; simpl; [|reflexivity].
  destruct (tokenOption chain nftAddress tokenId); simpl; [|reflexivity].
  destruct (options chain marketAddress 0); simpl; [|reflexivity].
  destruct (options chain marketAddress 1); simpl; [|reflexivity].
  destruct (totalPool chain marketAddress); simpl; [|reflexivity].
  destruct (isResolved chain marketAddress) as [[]|]; simpl; try reflexivity.
  now contradiction Hres.
Qed.

End RendererStatus.

(** ** Odds on a binary market *)

Section BinaryMarket.

Variables option0 option1 : MarketOption.t.
Variable total : Z.

Local Abbreviation pool0 := (MarketOption.totalPool option0).
Local Abbreviation pool1 := (MarketOption.totalPool option1).

Lemma odds_quotient (userOptionIndex : Z) :
  0 < total -> 0 <= pool0 <= total -> 0 <= pool1 <= total ->
  odds userOptionIndex option0 option1 total
  = userOptionPool userOptionIndex option0 option1 * 100 / total.
Proof.
  intros Hpos H0 H1. unfold odds, oddsOf.
  destruct (Z.gtb_spec total 0); [|lia].
  assert (Hpool : 0 <= userOptionPool userOptionIndex option0 option1 <= total)
    by (unfold userOptionPool; destruct (_ =? _); assumption).
  rewrite NumFacts.Number_exact by (now apply NumFacts.share_quotient_small).
  apply Z.quot_div_nonneg; lia.
Qed.

(** The two quotients, with their remainders. *)
Lemma odds_remainders :
  0 <= pool0 -> 0 <= pool1 -> pool0 + pool1 = total -> 0 < total ->
  let p0 := odds 0 option0 option1 total in
  let p1 := odds 1 option0 option1 total in
  (100 - (p0 + p1)) * total = (pool0 * 100) mod total + (pool1 * 100) mod total
  /\ 0 <= (pool0 * 100) mod total < total
  /\ 0 <= (pool1 * 100) mod total < total.
Proof.
  intros H0 H1 Hsum Hpos p0 p1.
  assert (Hp0 : p0 = pool0 * 100 / total) by (apply odds_quotient; lia).
  assert (Hp1 : p1 = pool1 * 100 / total) by (apply odds_quotient; lia).
  pose proof (Z.div_mod (pool0 * 100) total ltac:(lia)) as Hd0.
  pose proof (Z.div_mod (pool1 * 100) total ltac:(lia)) as Hd1.
  rewrite <- Hp0 in Hd0. rewrite <- Hp1 in Hd1.
  split; [nia|].
  split; apply Z.mod_pos_bound; assumption.
Qed.

(** X14. When the pool of each option is part of the total, the odds of a
    position lie between 0 and 100, whichever option it backs and whether
    the total is zero or not. *)
Theorem odds_within_bounds (userOptionIndex : Z) :
  0 <= pool0 <= total -> 0 <= pool1 <= total ->
  0 <= odds userOptionIndex option0 option1 total <= 100.
Proof.
  intros H0 H1.
  destruct (Z.eq_dec total 0) as [Hzero|Hnz].
  - unfold odds, oddsOf. rewrite Hzero. simpl. lia.
  - assert (Hpos : 0 < total) by lia.
    rewrite odds_quotient by assumption.
    assert (Hpool : 0 <= userOptionPool userOptionIndex option0 option1 <= total)
      by (unfold userOptionPool; destruct (_ =? _); assumption).
    split; [apply Z.div_pos; lia | apply Z.div_le_upper_bound; lia].
Qed.

(** X15. On a binary market whose two pools add up to a positive total, the
    odds shown to the two sides add up to 100, or to 99 when the division
    leaves a remainder: each side is rounded down. *)
Theorem binary_odds_sum :
  0 <= pool0 -> 0 <= pool1 -> pool0 + pool1 = total -> 0 < total ->
  let p0 := odds 0 option0 option1 total in
  let p1 := odds 1 option0 option1 total in
  (p0 + p1 = 100 \/ p0 + p1 = 99)
  /\ (p0 + p1 = 100 <-> (pool0 * 100) mod total = 0).
Proof.
  intros H0 H1 Hsum Hpos p0 p1.
  destruct (odds_remainders H0 H1 Hsum Hpos) as (Hkey & Hm0 & Hm1).
  fold p0 p1 in Hkey.
  set (r0 := (pool0 * 100) mod total) in *.
  set (r1 := (pool1 * 100) mod total) in *.
  assert (Hcases : p0 + p1 = 100 \/ p0 + p1 = 99) by nia.
  split; [exact Hcases|]. split.
  - intros H100. rewrite H100 in Hkey. lia.
  - intros Hr0. destruct Hcases as [H|H]; [exact H|]. exfalso.
    rewrite H, Hr0 in Hkey. lia.
Qed.

(** X16. On such a market that is unresolved, the two sides are never told
    they are both ahead: when the tier of one side is an advantage, the tier
    of the other is a disadvantage; and a huge advantage faces a huge
    disadvantage. *)
Theorem advantage_faces_disadvantage :
  0 <= pool0 -> 0 <= pool1 -> pool0 + pool1 = total -> 0 < total ->
  let t0 := unresolvedTier (odds 0 option0 option1 total) in
  let t1 := unresolvedTier (odds 1 option0 option1 total) in
  (at_advantage t0 = true -> at_disadvantage t1 = true)
  /\ (at_advantage t1 = true -> at_disadvantage t0 = true)
  /\ (t0 = huge_advantage -> t1 = huge_disadvantage)
  /\ (t1 = huge_advantage -> t0 = huge_disadvantage).
Proof.
  intros H0 H1 Hsum Hpos.
  destruct (odds_remainders H0 H1 Hsum Hpos) as (Hkey & Hm0 & Hm1).
  simpl in Hkey.
  set (p0 := odds 0 option0 option1 total) in *.
  set (p1 := odds 1 option0 option1 total) in *.
  assert (Hle : p0 + p1 <= 100) by nia.
  simpl. unfold unresolvedTier.
  destruct (Z.gtb_spec p0 75), (Z.gtb_spec p0 55), (Z.ltb_spec p0 25), (Z.ltb_spec p0 45),
           (Z.gtb_spec p1 75), (Z.gtb_spec p1 55), (Z.ltb_spec p1 25), (Z.ltb_spec p1 45);
    simpl; repeat split; intros; try reflexivity; try discriminate; lia.
Qed.

End BinaryMarket.

(** ** The image of a position *)

Section Images.

Variable isAddress : string -> bool.
Variable Number_toString : Z -> string.
Variable chain : Chain.
Variables marketAddress tokenId nftAddress : string.
Variable userOptionIndex : Z.
Variables option0 option1 : MarketOption.t.
Variable total : Z.
Variable resolution : option Z.

Local Abbreviation response :=
  (get_metadata isAddress Number_toString chain marketAddress tokenId).
Local Abbreviation p := (odds userOptionIndex option0 option1 total).

Hypothesis address_ok : isAddress marketAddress = true.
Hypothesis read_positionNFT : positionNFT chain marketAddress = Some nftAddress.
Hypothesis read_tokenOption : tokenOption chain nftAddress tokenId = Some userOptionIndex.
Hypothesis read_option0 : options chain marketAddress 0 = Some option0.
Hypothesis read_option1 : options chain marketAddress 1 = Some option1.
Hypothesis read_totalPool : totalPool chain marketAddress = Some total.
Hypothesis read_resolution :
  match resolution with
  | None => isResolved chain marketAddress = Some false
  | Some winningIndex =>
      isResolved chain marketAddress = Some true /\
      winningOptionIndex chain marketAddress = Some winningIndex
  end.

Lemma response_is :
  response =
  json 200 (MetadataBody
    (document Number_toString tokenId
       (imageUrls match resolution with
                  | Some winningIndex => resolvedTier winningIndex userOptionIndex
                  | None => unresolvedTier p
                  end)
       p
       match resolution with
       | Some winningIndex => resolvedResult winningIndex userOptionIndex
       | None => "Pending"
       end)).
Proof.
  exact (get_metadata_ok isAddress Number_toString chain marketAddress tokenId
           nftAddress userOptionIndex option0 option1 total resolution
           address_ok read_positionNFT read_tokenOption read_option0 read_option1
           read_totalPool read_resolution).
Qed.

(** X17. On a resolved market the image goes with the [Result] attribute:
    the winning image exactly when the attribute is [Won], the losing image
    exactly when it is [Lost], and never the image of a tier of odds. *)
Theorem resolved_image_matches_result (winningIndex : Z) :
  resolution = Some winningIndex ->
  (image response = Some (imageUrls win) <-> attribute "Result" response = Some "Won")
  /\ (image response = Some (imageUrls loss) <-> attribute "Result" response = Some "Lost")
  /\ (image response = Some (imageUrls win) \/ image response = Some (imageUrls loss)).
Proof.
  intros Hres. rewrite response_is, Hres.
  unfold image, attribute, resolvedTier, resolvedResult. simpl.
  destruct (winningIndex =? userOptionIndex); simpl;
    (split; [|split]); [| |now left| | |now right];
    split; intros H; try reflexivity; discriminate H.
Qed.

(** X18. On an unresolved market the image is the initial one exactly when
    the odds are between 45 and 75, both included: the tier
    [slight_advantage] has the same image as [initial], so a holder sees a
    change only above 75 and below 45. *)
Theorem unresolved_image_initial :
  resolution = None ->
  (image response = Some (imageUrls initial) <-> 45 <= p <= 75).
Proof.
  intros Hres. rewrite response_is, Hres. unfold image. simpl.
  unfold unresolvedTier.
  destruct (Z.gtb_spec p 75), (Z.gtb_spec p 55), (Z.ltb_spec p 25), (Z.ltb_spec p 45);
    split; intros Himage; try reflexivity; try lia; try discriminate Himage.
Qed.

End Images.

(** ** The shape of the document *)

(** X23. Every metadata document that is sent has the same shape: its name
    ends with the token id of the request, and its attributes are exactly
    two, in this order: the odds of the position, as the text of a number
    followed by a percent sign, and the result, which is [Pending], [Won] or
    [Lost]. *)
Theorem metadata_document_shape (isAddress : string -> bool)
    (Number_toString : Z -> string) (chain : Chain)
    (marketAddress tokenId : string) (doc : Metadata.t) :
  body (get_metadata isAddress Number_toString chain marketAddress tokenId)
  = MetadataBody doc ->
  Metadata.name doc = ("Prediction Market Position #" ++ tokenId)%string
  /\ exists (p : Z) (result : string),
       Metadata.attributes doc
       = [ {| trait_type := "Your Option Odds";
              value := (Num.toFixed2 Number_toString p ++ "%")%string |};
           {| trait_type := "Result"; value := result |} ]
       /\ (result = "Pending" \/ result = "Won" \/ result = "Lost").
Proof.
  unfold get_metadata, metadata.
  destruct (isAddress marketAddress); simpl; [|discriminate].
  destruct (positionNFT chain marketAddress) as [nftAddress|]; simpl; [|discriminate].
  destruct (tokenOption chain nftAddress tokenId) as [userOptionIndex|]; simpl;
    [|discriminate].
  destruct (options chain marketAddress 0) as [option0|]; simpl; [|discriminate].
  destruct (options chain marketAddress 1) as [option1|]; simpl; [|discriminate].
  destruct (totalPool chain marketAddress) as [total|]; simpl; [|discriminate].
  destruct (isResolved chain marketAddress) as [[]|]; simpl; [| |discriminate].
  - destruct (winningOptionIndex chain marketAddress) as [winningIndex|]; simpl;
      [|discriminate].
    intros [= <-]. split; [reflexivity|].
    exists (odds userOptionIndex option0 option1 total),
           (resolvedResult winningIndex userOptionIndex).
    split; [reflexivity|]. unfold resolvedResult.
    destruct (winningIndex =? userOptionIndex); auto.
  - intros [= <-]. split; [reflexivity|].
    exists (odds userOptionIndex option0 option1 total), "Pending". auto.
Qed.

(** ** The oracle script *)

Section OracleScript.
Import Oracle.

Variable Bytes : Type.
Variable makeHttpRequest : string -> ApiResponse.
Variable encodeUint256 : Js.Json -> option Bytes.

Local Abbreviation script := (script Bytes makeHttpRequest encodeUint256).

(** X19. The script fails for want of an argument exactly when [args] is
    empty or its first element is the empty string, whatever the network
    would answer. *)
Theorem script_needs_argument (args : list string) :
  script args = inl MissingArgument <-> head args = None \/ head args = Some "".
Proof.
  unfold Oracle.script.
  destruct args as [|marketAddress rest]; simpl; [tauto|].
  destruct (String.eqb_spec marketAddress "") as [->|Hne]; [tauto|].
  split.
  - destruct (makeHttpRequest _) as [[response_data|]|data]; try discriminate.
    + destruct (stringifiable_field response_data); discriminate.
    + destruct (read_winningOptionIndex data) as [[v|]|]; try discriminate.
      destruct (Js.stringifiable v); [|discriminate].
      destruct (encodeUint256 v); discriminate.
  - intros [H|[= H]]; [discriminate H | contradiction].
Qed.

(** X20. The script returns bytes only in one way: its first argument is
    not empty, the request to the relay's URL for that argument succeeds
    with a JSON object that has a [winningOptionIndex] field, that field can
    be converted to text for the log line, and the bytes are the encoding of
    that field. Every failure of the request, every other shape of the
    answer, a field that cannot be converted to text and every value the
    encoder refuses make the script throw. *)
Theorem script_returns_exactly (args : list string) (encodedResult : Bytes) :
  script args = inr encodedResult
  <-> exists marketAddress rest fields winningOptionIndex,
        args = marketAddress :: rest
        /\ marketAddress <> ""
        /\ makeHttpRequest (apiURL marketAddress) = Success (Some (Js.JObj fields))
        /\ Js.assoc "winningOptionIndex" fields = Some winningOptionIndex
        /\ Js.stringifiable winningOptionIndex = true
        /\ encodeUint256 winningOptionIndex = Some encodedResult.
Proof.
  unfold Oracle.script. split.
  - destruct args as [|marketAddress rest]; [discriminate|].
    destruct (String.eqb_spec marketAddress "") as [->|Hne]; [discriminate|].
    destruct (makeHttpRequest (apiURL marketAddress)) as [[response_data|]|data] eqn:Hreq;
      try discriminate.
    { destruct (stringifiable_field response_data); discriminate. }
    destruct data as [[|b|n|t|elems|fields]|]; simpl; try discriminate.
    destruct (Js.assoc "winningOptionIndex" fields) as [v|] eqn:Hfield; [|discriminate].
    destruct (Js.stringifiable v) eqn:Htext; [|discriminate].
    destruct (encodeUint256 v) as [bytes|] eqn:Henc; [|discriminate].
    intros [= <-]. exists marketAddress, rest, fields, v. auto 10.
  - intros (marketAddress & rest & fields & v & -> & Hne & Hreq & Hfield & Htext & Henc).
    apply String.eqb_neq in Hne. rewrite Hne, Hreq. simpl.
    now rewrite Hfield, Htext, Henc.
Qed.

End OracleScript.

(** ** The script against the relay *)

Section OracleAndRelay.
Import Oracle.

Variable API_KEY : option string.
Variable Bytes : Type.
Variable makeHttpRequest : string -> ApiResponse.
Variable encodeUint256 : Js.Json -> option Bytes.

Local Abbreviation script := (script Bytes makeHttpRequest encodeUint256).

(** A read that falls through to [Object.prototype] never yields a value
    that a request stored. *)
Lemma fresh_read_not_stored (k : string) (j : Js.Json) :
  Js.inherited_get Js.ProtoObject k <> Js.Val j.
Proof.
  simpl. unfold Js.object_prototype_get.
  destruct (String.eqb k "__proto__"); [discriminate|].
  destruct (String.eqb k "constructor"); [discriminate|].
  destruct (Js.mem k Js.object_prototype_methods); discriminate.
Qed.

(** X21. From the resolver to the contract: after a store of an index for
    a non-empty address that does not lowercase to [__proto__], by a request
    that passed the key check, the script called with any casing of that
    address, on a network that reaches the relay, returns the encoding of
    exactly that index when the index can be converted to text; it throws
    when the index cannot, or when the encoder refuses it. *)
Theorem oracle_round_trip (s : Js.Object) (key a a' : string) (winner : Js.Json) :
  apiKeyMiddleware API_KEY (Some key) = None ->
  a <> "" -> Js.toLowerCase a <> "__proto__" ->
  Js.toLowerCase a' = Js.toLowerCase a ->
  reaches_relay makeHttpRequest
    (snd (post_resolve_market API_KEY s (Some key) (Some (Js.JStr a)) (Some winner))) a' ->
  script [a']
  = if Js.stringifiable winner
    then
      match encodeUint256 winner with
      | Some encodedResult => inr encodedResult
      | None => inl EncodingFailed
      end
    else inl TypeError.
Proof.
  intros Hauth Hne Hproto Hcase Hnet.
  pose proof (store_then_fetch API_KEY s key a a' winner Hauth Hne Hproto Hcase) as Hfetch.
  destruct (post_resolve_market _ _ _ _ _) as [r s']. destruct Hfetch as [_ Hfetch].
  simpl in Hnet. unfold reaches_relay in Hnet. rewrite Hfetch in Hnet.
  assert (Hne' : a' <> "").
  { intros Hempty. apply Hne. apply JsFacts.toLowerCase_empty.
    rewrite <- Hcase, Hempty. reflexivity. }
  apply String.eqb_neq in Hne'.
  unfold Oracle.script. rewrite Hne', Hnet. reflexivity.
Qed.

(** X22. The script never reports an index that the relay does not hold: on
    a store whose prototype is untouched, for an address without an entry,
    the script throws, also for the inherited names to which the relay
    itself answers 200, as long as the encoder refuses an object. *)
Theorem oracle_absent_fails (s : Js.Object) (a' : string) (rest : list string) :
  Js.proto s = Js.ProtoObject ->
  Js.own s !! Js.toLowerCase a' = None ->
  encodeUint256 (Js.JObj []) = None ->
  reaches_relay makeHttpRequest s a' ->
  exists e, script (a' :: rest) = inl e.
Proof.
  intros Hproto Hown Henc Hnet. unfold Oracle.script.
  destruct (String.eqb a' ""); [eauto|].
  rewrite Hnet. unfold get_resolution, Js.get. rewrite Hown, Hproto.
  pose proof (fresh_read_not_stored (Js.toLowerCase a')) as Hfresh.
  destruct (Js.inherited_get Js.ProtoObject (Js.toLowerCase a')) as [|j|name|];
    simpl; eauto.
  - now contradiction (Hfresh j).
  - rewrite Henc. eauto.
Qed.

End OracleAndRelay.

(** ** The further properties on the scenarios *)

Section FurtherScenarios.
Import Sample Fixture.

Local Abbreviation accepted :=
  (POST_resolve_market (Some secret) (Some (Js.JStr market)) (Some (Js.JNum 1))).
Local Abbreviation guessed :=
  (POST_resolve_market (Some "guess") (Some (Js.JStr market)) (Some (Js.JNum 0))).
Local Abbreviation run := (run hexAddress no_exponent (Some secret) binary_30_70).

(** A store with a wrong key after an accepted one: the first index is
    served. *)
Lemma fetch_after_trace_witness :
  Forall stores_plainly [accepted; guessed; GET_get_resolution market]
  /\ Js.ascii_only market = true
  /\ ~ In (Js.toLowerCase market) Js.inherited_lowercase
  /\ get_resolution (run Js.empty_object [accepted; guessed; GET_get_resolution market])
       market
     = json 200 (ResolutionBody (Js.Val (Js.JNum 1))).
Proof.
  assert (Htrace : Forall stores_plainly [accepted; guessed; GET_get_resolution market]).
  { repeat constructor; simpl; discriminate. }
  assert (Hnot : ~ In (Js.toLowerCase market) Js.inherited_lowercase).
  { simpl. intros [H|[H|[]]]; discriminate H. }
  split; [exact Htrace|]. split; [reflexivity|]. split; [exact Hnot|].
  exact (fetch_after_trace hexAddress no_exponent (Some secret) binary_30_70
           [accepted; guessed; GET_get_resolution market] market Htrace eq_refl Hnot).
Defined.

(** Stored with the checksummed casing, fetched in lowercase. *)
Lemma round_trip_any_casing_witness :
  (apiKeyMiddleware (Some secret) (Some secret) = None
   /\ market <> "" /\ Js.toLowerCase market <> "__proto__"
   /\ Js.toLowerCase (Js.toLowerCase market) = Js.toLowerCase market)
  /\ fst (handle hexAddress no_exponent (Some secret) binary_30_70
            (run stored_one
               [POST_resolve_market (Some secret) (Some (Js.JStr market)) (Some (Js.JNum 0))])
            (GET_get_resolution (Js.toLowerCase market)))
     = json 200 (ResolutionBody (Js.Val (Js.JNum 0))).
Proof.
  split; [repeat split; discriminate|].
  apply (round_trip_any_casing hexAddress no_exponent (Some secret) binary_30_70
           stored_one secret market (Js.toLowerCase market) (Js.JNum 0));
    first [reflexivity | discriminate].
Defined.

(** A store for another address leaves the entry of [market]. *)
Lemma store_leaves_other_addresses_witness :
  Js.ascii_only market = true
  /\ (forall address, Some (Js.JStr "0xAB") = Some (Js.JStr address) ->
       Js.ascii_only address = true /\
       Js.toLowerCase address <> "__proto__" /\
       Js.toLowerCase address <> Js.toLowerCase market)
  /\ get_resolution
       (snd (post_resolve_market (Some secret) stored_one (Some secret)
               (Some (Js.JStr "0xAB")) (Some (Js.JNum 2)))) market
     = get_resolution stored_one market.
Proof.
  assert (H : forall address, Some (Js.JStr "0xAB") = Some (Js.JStr address) ->
     Js.ascii_only address = true /\
     Js.toLowerCase address <> "__proto__" /\
     Js.toLowerCase address <> Js.toLowerCase market).
  { intros address [= <-]. split; [reflexivity|]. split; discriminate. }
  split; [reflexivity|]. split; [exact H|].
  exact (store_leaves_other_addresses (Some secret) stored_one (Some secret)
           (Some (Js.JStr "0xAB")) (Some (Js.JNum 2)) market eq_refl H).
Defined.

Lemma store_idempotent_witness :
  (forall address, Some (Js.JStr market) = Some (Js.JStr address) ->
     Js.toLowerCase address <> "__proto__")
  /\ post_resolve_market (Some secret) stored_one (Some secret)
       (Some (Js.JStr market)) (Some (Js.JNum 1))
     = post_resolve_market (Some secret) Js.empty_object (Some secret)
         (Some (Js.JStr market)) (Some (Js.JNum 1)).
Proof.
  assert (H : forall address, Some (Js.JStr market) = Some (Js.JStr address) ->
     Js.toLowerCase address <> "__proto__").
  { intros address [= <-]. discriminate. }
  split; [exact H|].
  exact (store_idempotent (Some secret) Js.empty_object (Some secret)
           (Some (Js.JStr market)) (Some (Js.JNum 1)) H).
Defined.

Lemma stored_keys_are_lowercase_witness :
  is_Some (Js.own (run Js.empty_object [accepted]) !! Js.toLowerCase market)
  /\ Js.toLowerCase (Js.toLowerCase market) = Js.toLowerCase market.
Proof.
  assert (H : is_Some (Js.own (run Js.empty_object [accepted]) !! Js.toLowerCase market)).
  { exists (Js.JNum 1). reflexivity. }
  split; [exact H|].
  exact (stored_keys_are_lowercase hexAddress no_exponent (Some secret) binary_30_70
           [accepted] (Js.toLowerCase market) H).
Defined.

(** An object stored under [__proto__] answers for [0xAB]. *)
Lemma prototype_pollution_witness :
  (apiKeyMiddleware (Some secret) (Some secret) = None
   /\ Js.toLowerCase "__PROTO__" = "__proto__"
   /\ Js.ascii_only "0xAB" = true
   /\ Js.proto Js.empty_object = Js.ProtoObject
   /\ Js.own Js.empty_object !! "__proto__" = None
   /\ Js.own Js.empty_object !! Js.toLowerCase "0xAB" = None
   /\ Js.assoc (Js.toLowerCase "0xAB") [("0xab", Js.JNum 7)] = Some (Js.JNum 7))
  /\ get_resolution
       (snd (post_resolve_market (Some secret) Js.empty_object (Some secret)
               (Some (Js.JStr "__PROTO__")) (Some (Js.JObj [("0xab", Js.JNum 7)]))))
       "0xAB"
     = json 200 (ResolutionBody (Js.Val (Js.JNum 7))).
Proof.
  split; [repeat split|].
  apply (prototype_pollution (Some secret) Js.empty_object secret "__PROTO__" "0xAB"
           [("0xab", Js.JNum 7)] (Js.JNum 7)); reflexivity.
Defined.

(** No key configured: the warning is there, and nothing passes. *)
Lemma warning_means_closed_witness :
  Startup.start env_without_key
  = Startup.Listening "3000"
      [ Startup.console_log "dBet 后端服务器已启动, 监听端口: 3000";
        Startup.console_warn "警告: 未在 .env 文件中设置 API_KEY。" ]
  /\ (In (Startup.console_warn "警告: 未在 .env 文件中设置 API_KEY。")
         [ Startup.console_log "dBet 后端服务器已启动, 监听端口: 3000";
           Startup.console_warn "警告: 未在 .env 文件中设置 API_KEY。" ]
      <-> forall key, apiKeyMiddleware (Startup.API_KEY env_without_key) key <> None).
Proof.
  split; [reflexivity|].
  apply (warning_means_closed env_without_key "3000"). reflexivity.
Defined.


(** The market is unresolved: a failing [winningOptionIndex()] changes
    nothing. *)
Lemma unresolved_never_reads_winner_witness :
  isResolved binary_30_70 market <> Some true
  /\ get_metadata hexAddress no_exponent
       (with_winningOptionIndex binary_30_70 (fun _ => None)) market "7"
     = get_metadata hexAddress no_exponent binary_30_70 market "7".
Proof.
  assert (H : isResolved binary_30_70 market <> Some true) by discriminate.
  split; [exact H|].
  exact (unresolved_never_reads_winner hexAddress no_exponent binary_30_70
           (fun _ => None) market "7" H).
Defined.

Lemma odds_within_bounds_witness :
  (0 <= 30 <= 100 /\ 0 <= 70 <= 100)
  /\ 0 <= odds 1 (MarketOption.mk "" 30) (MarketOption.mk "" 70) 100 <= 100.
Proof.
  split; [lia|].
  apply (odds_within_bounds (MarketOption.mk "" 30) (MarketOption.mk "" 70) 100 1);
    simpl; lia.
Defined.

(** Pools of 1 and 2: 33 and 66, which add up to 99. *)
Lemma binary_odds_sum_witness :
  (0 <= 1 /\ 0 <= 2 /\ 1 + 2 = 3 /\ 0 < 3)
  /\ (odds 0 (MarketOption.mk "" 1) (MarketOption.mk "" 2) 3
      + odds 1 (MarketOption.mk "" 1) (MarketOption.mk "" 2) 3 = 100
      \/ odds 0 (MarketOption.mk "" 1) (MarketOption.mk "" 2) 3
         + odds 1 (MarketOption.mk "" 1) (MarketOption.mk "" 2) 3 = 99).
Proof.
  split; [lia|].
  apply (binary_odds_sum (MarketOption.mk "" 1) (MarketOption.mk "" 2) 3);
    simpl; lia.
Defined.

(** Pools of 80 and 20: a huge advantage faces a huge disadvantage. *)
Lemma advantage_faces_disadvantage_witness :
  (0 <= 80 /\ 0 <= 20 /\ 80 + 20 = 100 /\ 0 < 100)
  /\ (unresolvedTier (odds 0 (MarketOption.mk "" 80) (MarketOption.mk "" 20) 100)
      = huge_advantage ->
      unresolvedTier (odds 1 (MarketOption.mk "" 80) (MarketOption.mk "" 20) 100)
      = huge_disadvantage).
Proof.
  split; [lia|].
  apply (advantage_faces_disadvantage (MarketOption.mk "" 80) (MarketOption.mk "" 20) 100);
    simpl; lia.
Defined.

Lemma resolved_image_matches_result_witness :
  (hexAddress market = true
   /\ positionNFT resolved_won market = Some nft
   /\ tokenOption resolved_won nft "7" = Some 1
   /\ options resolved_won market 0 = Some (MarketOption.mk "" 30)
   /\ options resolved_won market 1 = Some (MarketOption.mk "" 70)
   /\ totalPool resolved_won market = Some 100
   /\ isResolved resolved_won market = Some true
   /\ winningOptionIndex resolved_won market = Some 1)
  /\ (image (get_metadata hexAddress no_exponent resolved_won market "7")
      = Some (imageUrls win)
      <-> attribute "Result" (get_metadata hexAddress no_exponent resolved_won market "7")
          = Some "Won").
Proof.
  split; [repeat split|].
  apply (resolved_image_matches_result hexAddress no_exponent resolved_won market "7" nft 1
           (MarketOption.mk "" 30) (MarketOption.mk "" 70) 100 (Some 1)
           eq_refl eq_refl eq_refl eq_refl eq_refl eq_refl (conj eq_refl eq_refl) 1 eq_refl).
Defined.

(** Odds of 70: the tier is [slight_advantage], the image the initial one. *)
Lemma unresolved_image_initial_witness :
  (hexAddress market = true
   /\ positionNFT binary_30_70 market = Some nft
   /\ tokenOption binary_30_70 nft "7" = Some 1
   /\ options binary_30_70 market 0 = Some (MarketOption.mk "" 30)
   /\ options binary_30_70 market 1 = Some (MarketOption.mk "" 70)
   /\ totalPool binary_30_70 market = Some 100
   /\ isResolved binary_30_70 market = Some false)
  /\ (image (get_metadata hexAddress no_exponent binary_30_70 market "7")
      = Some (imageUrls initial)
      <-> 45 <= odds 1 (MarketOption.mk "" 30) (MarketOption.mk "" 70) 100 <= 75).
Proof.
  split; [repeat split|].
  apply (unresolved_image_initial hexAddress no_exponent binary_30_70 market "7" nft 1
           (MarketOption.mk "" 30) (MarketOption.mk "" 70) 100 None
           eq_refl eq_refl eq_refl eq_refl eq_refl eq_refl eq_refl eq_refl).
Defined.

Lemma metadata_document_shape_witness :
  body (get_metadata hexAddress no_exponent binary_30_70 market "7")
  = MetadataBody
      (document no_exponent "7" (imageUrls slight_advantage) 70 "Pending")
  /\ Metadata.name (document no_exponent "7" (imageUrls slight_advantage) 70 "Pending")
     = "Prediction Market Position #7".
Proof.
  split; [reflexivity|].
  apply (metadata_document_shape hexAddress no_exponent binary_30_70 market "7").
  reflexivity.
Defined.

(** Index 1 stored for [market]: the script, given the lowercase address,
    returns the 32 bytes of 1. *)
Lemma oracle_round_trip_witness :
  (apiKeyMiddleware (Some secret) (Some secret) = None
   /\ market <> "" /\ Js.toLowerCase market <> "__proto__"
   /\ Js.toLowerCase (Js.toLowerCase market) = Js.toLowerCase market
   /\ Oracle.reaches_relay (network stored_one) stored_one (Js.toLowerCase market))
  /\ Oracle.script (list Z) (network stored_one) encodeUint256 [Js.toLowerCase market]
     = inr (bytes32 1).
Proof.
  split; [repeat split; discriminate|].
  apply (oracle_round_trip (Some secret) (list Z) (network stored_one) encodeUint256
           Js.empty_object secret market (Js.toLowerCase market) (Js.JNum 1));
    first [reflexivity | discriminate].
Defined.

(** On a fresh relay the script fails for [constructor], although the relay
    answers 200. *)
Lemma oracle_absent_fails_witness :
  (Js.proto Js.empty_object = Js.ProtoObject
   /\ Js.own Js.empty_object !! Js.toLowerCase "constructor" = None
   /\ encodeUint256 (Js.JObj []) = None
   /\ Oracle.reaches_relay (network Js.empty_object) Js.empty_object "constructor")
  /\ exists e,
       Oracle.script (list Z) (network Js.empty_object) encodeUint256 ["constructor"]
       = inl e.
Proof.
  split; [repeat split|].
  apply (oracle_absent_fails (list Z) (network Js.empty_object) encodeUint256
           Js.empty_object "constructor" []); reflexivity.
Defined.

End FurtherScenarios.
